(** * Expense tracker: balance consistency of the FastAPI backend (main.py)

    A shallow embedding of the expense and funds endpoints of [main.py]
    together with the helper [resolve_expense_object_id].

    Modelling conventions.
    - Money.  The source stores amounts as Python [float]; here an amount is
      an exact number, a [Z] counting minor currency units.  Only [+], [-],
      [<] and [<=] are used by the endpoints, so every branch of the source
      is taken under the same comparison here; rounding is out of scope.
    - Identifiers.  A BSON [ObjectId] is the 96-bit number its 24 hexadecimal
      digits denote.  [insert_one] draws a fresh one from a counter kept in
      the database state.
    - Storage.  A MongoDB collection is the list of its documents in natural
      order.  [find_one], [update_one] and [delete_one] act on the first
      document matching the filter; [find(..).sort("date", -1)] is a stable
      descending sort of the matching documents by the date string.
    - Effects.  Every pymongo call is one command of a small program monad
      ([prog]); an [HTTPException] is the constructor [Raise].  One
      definition of each endpoint is run sequentially ([run]) or step by step
      inside a pool of requests ([run_sched]).
    - Authentication.  Decoding the bearer token is outside the model: a
      request carries the [sub] claim of its token, and [get_current_user]
      looks that user up as the source does.
    - Strings are byte strings; Python's treatment of non-ASCII digits and
      blanks, and the digit limit of [int], are outside the model. *)

From Stdlib Require Import ZArith NArith List String Ascii Bool Lia.
From Stdlib Require Import Sorted Permutation.
Import ListNotations.
Local Open Scope string_scope.
Local Open Scope Z_scope.

(** ** Documents *)

Definition ObjectId := N.

(** A document of [users_collection]; [balance] is absent from documents
    written before the field existed, hence [current_user.get("balance", 0.0)]. *)
Record user_doc := mk_user {
  u_id : ObjectId;
  username : string;
  password : string;
  full_name : string;
  email : string;
  role : string;
  balance : option Z
}.

(** A document of [expenses_collection]. *)
Record expense_doc := mk_expense {
  e_id : ObjectId;
  user_id : ObjectId;
  amount : Z;
  category : string;
  date : string;
  description : string
}.

(** class ExpenseCreate *)
Record ExpenseCreate := mk_create {
  c_amount : Z;
  c_category : string;
  c_date : string;
  c_description : string
}.

(** class ExpenseUpdate: every field optional, default [None]. *)
Record ExpenseUpdate := mk_update {
  p_amount : option Z;
  p_category : option string;
  p_date : option string;
  p_description : option string
}.

(** The database: the three collections and the source of fresh ids. *)
Record db := mk_db {
  users : list user_doc;
  expenses : list expense_doc;
  categories : list string;
  next_oid : ObjectId
}.

(** ** HTTP errors

    One constructor per [raise HTTPException(...)] of the modelled code. *)
Inductive http_error :=
| CredentialsError        (* 401 Could not validate credentials *)
| InvalidIdFormat         (* 400 Invalid expense ID format. ... *)
| IndexOutOfRange         (* 404 Expense index out of range *)
| InsufficientFunds       (* 400 Insufficient funds to ... *)
| InvalidCategory         (* 400 Invalid category *)
| ExpenseNotFound         (* 404 Expense not found or not authorized *)
| NoFieldsToUpdate        (* 400 No fields to update *)
| AmountNotPositive       (* 400 Amount must be positive *)
| UserNotFound            (* 404 User not found *)
| UsernameRegistered      (* 400 Username already registered *)
| EmailRegistered         (* 400 Email already registered *)
| InternalServerError.    (* 500, an exception no handler catches *)

Definition status_code (e : http_error) : Z :=
  match e with
  | CredentialsError => 401
  | InvalidIdFormat | InsufficientFunds | InvalidCategory
  | NoFieldsToUpdate | AmountNotPositive
  | UsernameRegistered | EmailRegistered => 400
  | IndexOutOfRange | ExpenseNotFound | UserNotFound => 404
  | InternalServerError => 500
  end.

(** ** Parsing the path parameter *)

(** [str.isspace] on the ASCII range. *)
Definition is_space (c : ascii) : bool :=
  let n := nat_of_ascii c in
  ((9 <=? n) && (n <=? 13) || (28 <=? n) && (n <=? 32))%nat.

Fixpoint lstrip (s : string) : string :=
  match s with
  | EmptyString => EmptyString
  | String c r => if is_space c then lstrip r else s
  end.

Fixpoint rev_append (s acc : string) : string :=
  match s with
  | EmptyString => acc
  | String c r => rev_append r (String c acc)
  end.

Definition rev (s : string) : string := rev_append s EmptyString.

Definition rstrip (s : string) : string := rev (lstrip (rev s)).

(** [str.strip()] *)
Definition strip (s : string) : string := lstrip (rstrip s).

Definition hex_digit (c : ascii) : option N :=
  let n := N_of_ascii c in
  if ((48 <=? n) && (n <=? 57))%N then Some (n - 48)%N
  else if ((97 <=? n) && (n <=? 102))%N then Some (n - 87)%N
  else if ((65 <=? n) && (n <=? 70))%N then Some (n - 55)%N
  else None.

Fixpoint hex_value (s : string) (acc : N) : option N :=
  match s with
  | EmptyString => Some acc
  | String c r =>
      match hex_digit c with
      | Some d => hex_value r (16 * acc + d)%N
      | None => None
      end
  end.

(** [ObjectId(tid)] on a [str]: exactly 24 hexadecimal digits, else
    [InvalidId]. *)
Definition ObjectId_of_string (s : string) : option ObjectId :=
  if (String.length s =? 24)%nat then hex_value s 0%N else None.

Definition dec_digit (c : ascii) : option Z :=
  let n := N_of_ascii c in
  if ((48 <=? n) && (n <=? 57))%N then Some (Z.of_N (n - 48)) else None.

(** The digits of a Python integer literal: single underscores may separate
    digits.  [prev] tells whether the previous character was a digit. *)
Fixpoint int_digits (s : string) (prev : bool) (acc : Z) : option Z :=
  match s with
  | EmptyString => if prev then Some acc else None
  | String c r =>
      if Ascii.eqb c "_"%char
      then (if prev then int_digits r false acc else None)
      else match dec_digit c with
           | Some d => int_digits r true (10 * acc + d)
           | None => None
           end
  end.

(** [int(tid)]: blanks around, an optional sign, decimal digits. *)
Definition py_int (s : string) : option Z :=
  match strip s with
  | EmptyString => None
  | String c r =>
      if Ascii.eqb c "-"%char then option_map Z.opp (int_digits r false 0)
      else if Ascii.eqb c "+"%char then int_digits r false 0
      else int_digits (String c r) false 0
  end.

(** ** Pure operations on the collections *)

Definition oid_eqb : ObjectId -> ObjectId -> bool := N.eqb.

(** [users_collection.find_one({"username": name})] *)
Definition find_user_by_name (name : string) (us : list user_doc) : option user_doc :=
  find (fun u => String.eqb (username u) name) us.

(** [users_collection.find_one({"_id": id})] *)
Definition find_user_by_id (id : ObjectId) (us : list user_doc) : option user_doc :=
  find (fun u => oid_eqb (u_id u) id) us.

(** [current_user.get("balance", 0.0)] *)
Definition get_balance (u : user_doc) : Z :=
  match balance u with Some b => b | None => 0 end.

Definition set_balance (u : user_doc) (b : Z) : user_doc :=
  mk_user (u_id u) (username u) (password u) (full_name u) (email u) (role u) (Some b).

(** [users_collection.update_one({"_id": id}, {"$inc": {"balance": delta}})]:
    the first matching document is updated; [$inc] creates a missing field. *)
Fixpoint inc_balance (id : ObjectId) (delta : Z) (us : list user_doc)
  : nat * list user_doc :=
  match us with
  | [] => (0%nat, [])
  | u :: r =>
      if oid_eqb (u_id u) id
      then (1%nat, set_balance u (get_balance u + delta) :: r)
      else let (n, r') := inc_balance id delta r in (n, u :: r')
  end.

(** [categories_collection.find_one({"name": name})] *)
Definition find_category (name : string) (cs : list string) : option string :=
  find (fun c => String.eqb c name) cs.

Definition owned (id uid : ObjectId) (e : expense_doc) : bool :=
  oid_eqb (e_id e) id && oid_eqb (user_id e) uid.

(** [expenses_collection.find_one({"_id": id, "user_id": uid})] *)
Definition find_expense (id uid : ObjectId) (es : list expense_doc) : option expense_doc :=
  find (owned id uid) es.

Definition or_else {A} (o : option A) (d : A) : A :=
  match o with Some a => a | None => d end.

(** [{"$set": update_data}] with [update_data] the fields of the patch that
    are not [None]. *)
Definition apply_set (p : ExpenseUpdate) (e : expense_doc) : expense_doc :=
  mk_expense (e_id e) (user_id e)
    (or_else (p_amount p) (amount e))
    (or_else (p_category p) (category e))
    (or_else (p_date p) (date e))
    (or_else (p_description p) (description e)).

(** [expenses_collection.update_one({"_id": id, "user_id": uid}, {"$set": ..})] *)
Fixpoint update_expense_doc (id uid : ObjectId) (p : ExpenseUpdate)
  (es : list expense_doc) : nat * list expense_doc :=
  match es with
  | [] => (0%nat, [])
  | e :: r =>
      if owned id uid e then (1%nat, apply_set p e :: r)
      else let (n, r') := update_expense_doc id uid p r in (n, e :: r')
  end.

(** [expenses_collection.delete_one({"_id": id, "user_id": uid})] *)
Fixpoint delete_expense_doc (id uid : ObjectId) (es : list expense_doc)
  : nat * list expense_doc :=
  match es with
  | [] => (0%nat, [])
  | e :: r =>
      if owned id uid e then (1%nat, r)
      else let (n, r') := delete_expense_doc id uid r in (n, e :: r')
  end.

(** The filter documents built by [get_expenses] and
    [resolve_expense_object_id]. *)
Record query := mk_query {
  q_user : option ObjectId;
  q_category : option string;
  q_gte : option string;
  q_lte : option string
}.

Definition opt_test {A} (f : A -> bool) (o : option A) : bool :=
  match o with Some a => f a | None => true end.

Definition matches (q : query) (e : expense_doc) : bool :=
  opt_test (fun u => oid_eqb (user_id e) u) (q_user q)
  && opt_test (fun c => String.eqb (category e) c) (q_category q)
  && opt_test (fun lo => String.leb lo (date e)) (q_gte q)
  && opt_test (fun hi => String.leb (date e) hi) (q_lte q).

(** Stable insertion into a list sorted by date, latest first. *)
Fixpoint insert_desc (e : expense_doc) (l : list expense_doc) : list expense_doc :=
  match l with
  | [] => [e]
  | x :: r => if String.ltb (date e) (date x) then x :: insert_desc e r else e :: l
  end.

(** [.sort("date", -1)] *)
Fixpoint sort_desc (l : list expense_doc) : list expense_doc :=
  match l with
  | [] => []
  | e :: r => insert_desc e (sort_desc r)
  end.

(** [list(expenses_collection.find(q).sort("date", -1))] *)
Definition find_sorted (q : query) (es : list expense_doc) : list expense_doc :=
  sort_desc (filter (matches q) es).

(** ** Commands and programs

    One command per pymongo call of the modelled code, indexed by the type
    of its reply. *)
Inductive cmd : Type -> Type :=
| UsersFindOneByName (name : string) : cmd (option user_doc)
| UsersFindOneById (id : ObjectId) : cmd (option user_doc)
| UsersFindOneByEmail (mail : string) : cmd (option user_doc)
| UsersInsertOne (name pw fullname mail : string) : cmd ObjectId
| UsersIncBalance (id : ObjectId) (delta : Z) : cmd nat
| CategoriesFindOne (name : string) : cmd (option string)
| ExpensesInsertOne (uid : ObjectId) (e : ExpenseCreate) : cmd ObjectId
| ExpensesFindSorted (q : query) : cmd (list expense_doc)
| ExpensesFindOne (id uid : ObjectId) : cmd (option expense_doc)
| ExpensesUpdateOne (id uid : ObjectId) (p : ExpenseUpdate) : cmd nat
| ExpensesDeleteOne (id uid : ObjectId) : cmd nat.

(** A request handler: a tree of commands ending in a reply or in an
    [HTTPException]. *)
Inductive prog (A : Type) : Type :=
| Ret (a : A)
| Raise (e : http_error)
| Vis {X : Type} (c : cmd X) (k : X -> prog A).

Arguments Ret {A} a.
Arguments Raise {A} e.
Arguments Vis {A X} c k.

Fixpoint bind {A B} (m : prog A) (f : A -> prog B) : prog B :=
  match m with
  | Ret a => f a
  | Raise e => Raise e
  | Vis c k => Vis c (fun x => bind (k x) f)
  end.

Definition call {X} (c : cmd X) : prog X := Vis c Ret.

Notation "x <- m ;; k" := (bind m (fun x => k))
  (at level 61, m at next level, right associativity).
Notation "m ;;; k" := (bind m (fun _ => k))
  (at level 61, right associativity).

(** What a command touches. *)
Inductive collection := Users | Expenses | Categories.
Inductive access := Read | Write.
Definition io_event := (collection * access)%type.

Definition io_of {X} (c : cmd X) : io_event :=
  match c with
  | UsersFindOneByName _ | UsersFindOneById _ | UsersFindOneByEmail _ => (Users, Read)
  | UsersIncBalance _ _ | UsersInsertOne _ _ _ _ => (Users, Write)
  | CategoriesFindOne _ => (Categories, Read)
  | ExpensesInsertOne _ _ | ExpensesUpdateOne _ _ _ | ExpensesDeleteOne _ _ =>
      (Expenses, Write)
  | ExpensesFindSorted _ | ExpensesFindOne _ _ => (Expenses, Read)
  end.

(** The effect of one command on the database, and its reply. *)
Definition exec {X} (c : cmd X) (s : db) : X * db :=
  match c in cmd X return X * db with
  | UsersFindOneByName name => (find_user_by_name name (users s), s)
  | UsersFindOneById id => (find_user_by_id id (users s), s)
  | UsersFindOneByEmail mail =>
      (find (fun u => String.eqb (email u) mail) (users s), s)
  | UsersInsertOne name pw fullname mail =>
      let id := next_oid s in
      (id, mk_db (users s ++ [mk_user id name pw fullname mail "user" (Some 0)])
             (expenses s) (categories s) (N.succ id))
  | UsersIncBalance id delta =>
      let (n, us) := inc_balance id delta (users s) in
      (n, mk_db us (expenses s) (categories s) (next_oid s))
  | CategoriesFindOne name => (find_category name (categories s), s)
  | ExpensesInsertOne uid e =>
      let id := next_oid s in
      (id, mk_db (users s)
             (expenses s ++
                [mk_expense id uid (c_amount e) (c_category e) (c_date e) (c_description e)])
             (categories s) (N.succ id))
  | ExpensesFindSorted q => (find_sorted q (expenses s), s)
  | ExpensesFindOne id uid => (find_expense id uid (expenses s), s)
  | ExpensesUpdateOne id uid p =>
      let (n, es) := update_expense_doc id uid p (expenses s) in
      (n, mk_db (users s) es (categories s) (next_oid s))
  | ExpensesDeleteOne id uid =>
      let (n, es) := delete_expense_doc id uid (expenses s) in
      (n, mk_db (users s) es (categories s) (next_oid s))
  end.

(** The outcome of a request. *)
Inductive outcome (A : Type) : Type :=
| Ok (a : A)
| Err (e : http_error).
Arguments Ok {A} a.
Arguments Err {A} e.

(** Sequential execution of one request: outcome, final database and the
    accesses made, in order. *)
Fixpoint run {A} (m : prog A) (s : db) : outcome A * db * list io_event :=
  match m with
  | Ret a => (Ok a, s, [])
  | Raise e => (Err e, s, [])
  | Vis c k =>
      let (x, s') := exec c s in
      let '(o, s'', t) := run (k x) s' in
      (o, s'', io_of c :: t)
  end.

Definition result_of {A} (r : outcome A * db * list io_event) : outcome A := fst (fst r).
Definition db_of {A} (r : outcome A * db * list io_event) : db := snd (fst r).
Definition trace_of {A} (r : outcome A * db * list io_event) : list io_event := snd r.

(** ** Helpers of main.py *)

(** [get_current_user]: the user named by the token, or 401. *)
Definition get_current_user (sub : string) : prog user_doc :=
  user <- call (UsersFindOneByName sub) ;;
  match user with
  | None => Raise CredentialsError
  | Some u => Ret u
  end.

(** [resolve_expense_object_id]: an [ObjectId] if the text is one, else a
    position in the caller's expenses, latest date first. *)
Definition resolve_expense_object_id (expense_id : string) (current_user : user_doc)
  : prog ObjectId :=
  let tid := strip expense_id in
  match ObjectId_of_string tid with
  | Some oid => Ret oid
  | None =>
      match py_int tid with
      | None => Raise InvalidIdFormat
      | Some idx =>
          expenses <- call (ExpensesFindSorted
                              (mk_query (Some (u_id current_user)) None None None)) ;;
          if (idx <? 0) || (Z.of_nat (List.length expenses) <=? idx)
          then Raise IndexOutOfRange
          else match nth_error expenses (Z.to_nat idx) with
               | Some e => Ret (e_id e)
               | None => Raise InternalServerError
               end
      end
  end.

(** ** Routes *)

(** POST /register; [get_password_hash] is bcrypt, taken as a parameter. *)
Definition register (get_password_hash : string -> string)
  (name pw fullname mail : string) : prog ObjectId :=
  u <- call (UsersFindOneByName name) ;;
  match u with
  | Some _ => Raise UsernameRegistered
  | None =>
      m <- call (UsersFindOneByEmail mail) ;;
      match m with
      | Some _ => Raise EmailRegistered
      | None => call (UsersInsertOne name (get_password_hash pw) fullname mail)
      end
  end.

(** POST /expenses *)
Definition add_expense (expense : ExpenseCreate) (sub : string) : prog ObjectId :=
  current_user <- get_current_user sub ;;
  if get_balance current_user <? c_amount expense
  then Raise InsufficientFunds
  else
    cat <- call (CategoriesFindOne (c_category expense)) ;;
    match cat with
    | None => Raise InvalidCategory
    | Some _ =>
        inserted_id <- call (ExpensesInsertOne (u_id current_user) expense) ;;
        call (UsersIncBalance (u_id current_user) (- c_amount expense)) ;;;
        Ret inserted_id
    end.

(** Python truth of an optional string: [None] and [""] are false. *)
Definition truthy (o : option string) : bool :=
  match o with
  | None | Some EmptyString => false
  | Some _ => true
  end.

(** GET /expenses *)
Definition get_expenses (cat start stop : option string) (sub : string)
  : prog (list expense_doc) :=
  current_user <- get_current_user sub ;;
  let q_cat := if truthy cat then cat else None in
  let '(gte, lte) :=
    if truthy start && truthy stop then (start, stop)
    else if truthy start then (start, None)
    else if truthy stop then (None, stop)
    else (None, None) in
  call (ExpensesFindSorted (mk_query (Some (u_id current_user)) q_cat gte lte)).

(** GET /expenses/{expense_id} *)
Definition get_expense (expense_id : string) (sub : string) : prog expense_doc :=
  current_user <- get_current_user sub ;;
  obj_id <- resolve_expense_object_id expense_id current_user ;;
  doc <- call (ExpensesFindOne obj_id (u_id current_user)) ;;
  match doc with
  | None => Raise ExpenseNotFound
  | Some d => Ret d
  end.

(** [not update_data] *)
Definition no_fields (p : ExpenseUpdate) : bool :=
  match p_amount p, p_category p, p_date p, p_description p with
  | None, None, None, None => true
  | _, _, _, _ => false
  end.

(** PUT /expenses/{expense_id} *)
Definition update_expense (expense_id : string) (expense : ExpenseUpdate) (sub : string)
  : prog unit :=
  current_user <- get_current_user sub ;;
  obj_id <- resolve_expense_object_id expense_id current_user ;;
  doc <- call (ExpensesFindOne obj_id (u_id current_user)) ;;
  match doc with
  | None => Raise ExpenseNotFound
  | Some d =>
      let original_amount := amount d in
      if no_fields expense then Raise NoFieldsToUpdate
      else
        match p_category expense with
        | Some c =>
            cat <- call (CategoriesFindOne c) ;;
            match cat with
            | None => Raise InvalidCategory
            | Some _ => Ret tt
            end
        | None => Ret tt
        end ;;;
        let new_amount := or_else (p_amount expense) original_amount in
        let amount_change := new_amount - original_amount in
        if get_balance current_user <? amount_change
        then Raise InsufficientFunds
        else
          matched_count <- call (ExpensesUpdateOne obj_id (u_id current_user) expense) ;;
          if (0 <? matched_count)%nat
          then call (UsersIncBalance (u_id current_user) (- amount_change)) ;;; Ret tt
          else Raise ExpenseNotFound
  end.

(** DELETE /expenses/{expense_id} *)
Definition delete_expense (expense_id : string) (sub : string) : prog unit :=
  current_user <- get_current_user sub ;;
  obj_id <- resolve_expense_object_id expense_id current_user ;;
  doc <- call (ExpensesFindOne obj_id (u_id current_user)) ;;
  match doc with
  | None => Raise ExpenseNotFound
  | Some d =>
      deleted_count <- call (ExpensesDeleteOne obj_id (u_id current_user)) ;;
      if (0 <? deleted_count)%nat
      then call (UsersIncBalance (u_id current_user) (amount d)) ;;; Ret tt
      else Raise ExpenseNotFound
  end.

(** POST /funds; the reply carries [updated_user.get("balance")]. *)
Definition add_funds (funds_amount : Z) (sub : string) : prog (option Z) :=
  current_user <- get_current_user sub ;;
  if funds_amount <=? 0 then Raise AmountNotPositive
  else
    matched_count <- call (UsersIncBalance (u_id current_user) funds_amount) ;;
    if (matched_count =? 0)%nat then Raise UserNotFound
    else
      updated_user <- call (UsersFindOneById (u_id current_user)) ;;
      match updated_user with
      | Some u => Ret (balance u)
      | None => Raise InternalServerError
      end.

(** ** Sequences of operations on one account *)

Inductive op :=
| AddFunds (a : Z)
| CreateExpense (e : ExpenseCreate)
| UpdateExpense (id : string) (p : ExpenseUpdate)
| DeleteExpense (id : string).

(** The database after one operation of [sub], and the funds it credited. *)
Definition run_op (sub : string) (o : op) (s : db) : db * Z :=
  match o with
  | AddFunds a =>
      let r := run (add_funds a sub) s in
      (db_of r, match result_of r with Ok _ => a | Err _ => 0 end)
  | CreateExpense e => (db_of (run (add_expense e sub) s), 0)
  | UpdateExpense id p => (db_of (run (update_expense id p sub) s), 0)
  | DeleteExpense id => (db_of (run (delete_expense id sub) s), 0)
  end.

Fixpoint run_ops (sub : string) (ops : list op) (s : db) : db * Z :=
  match ops with
  | [] => (s, 0)
  | o :: r =>
      let (s1, a) := run_op sub o s in
      let (s2, b) := run_ops sub r s1 in
      (s2, a + b)
  end.

(** The sum of the amounts of the expenses of [uid] in the ledger. *)
Fixpoint spent (uid : ObjectId) (es : list expense_doc) : Z :=
  match es with
  | [] => 0
  | e :: r => (if oid_eqb (user_id e) uid then amount e else 0) + spent uid r
  end.

(** MongoDB keeps [_id] unique within a collection, and a fresh [ObjectId]
    is one no document carries or refers to. *)
Definition fresh_from (n : ObjectId) (s : db) : Prop :=
  (forall u, In u (users s) -> (u_id u < n)%N) /\
  (forall e, In e (expenses s) -> (e_id e < n)%N /\ (user_id e < n)%N).

Definition db_wf (s : db) : Prop :=
  NoDup (map u_id (users s)) /\
  NoDup (map e_id (expenses s)) /\
  fresh_from (next_oid s) s.

(** ** Requests served concurrently

    Each request of the pool advances by one command at a time; a schedule
    names the request that moves next. *)
Definition pool (A : Type) := list (prog A).

Fixpoint set_nth {A} (i : nat) (x : A) (l : list A) : list A :=
  match l, i with
  | [], _ => []
  | _ :: r, O => x :: r
  | y :: r, S j => y :: set_nth j x r
  end.

Definition step_request {A} (i : nat) (p : pool A) (s : db) : pool A * db :=
  match nth_error p i with
  | Some (Vis c k) => let (x, s') := exec c s in (set_nth i (k x) p, s')
  | _ => (p, s)
  end.

Fixpoint run_sched {A} (sched : list nat) (p : pool A) (s : db) : pool A * db :=
  match sched with
  | [] => (p, s)
  | i :: r => let (p', s') := step_request i p s in run_sched r p' s'
  end.

(** ** Auxiliary definitions and the states of the examples *)

(** A trace without a write. *)
Definition reads_only (t : list io_event) : Prop :=
  Forall (fun ev => snd ev = Read) t.

(** The category named by a patch, if any, is registered. *)
Definition category_ok (p : ExpenseUpdate) (cats : list string) : bool :=
  match p_category p with
  | Some c => match find_category c cats with Some _ => true | None => false end
  | None => true
  end.

(** The account of [sub]: its document has id [uid] and stored balance [b],
    and user ids are unique. *)
Definition account (sub : string) (uid : ObjectId) (b : Z) (s : db) : Prop :=
  NoDup (map u_id (users s)) /\
  exists u, find_user_by_name sub (users s) = Some u /\ u_id u = uid /\ balance u = Some b.

(** An empty database with two categories. *)
Definition scenario_db : db := mk_db [] [] ["Food"; "Rent"] 1%N.

(** Scenarios A to C of the specification, followed by a refused AddFunds,
    a second expense and the deletion of the first by its position. *)
Definition scenario_ops : list op :=
  [ AddFunds 100;
    CreateExpense (mk_create 40 "Food" "2024-01-01" "lunch");
    UpdateExpense "0" (mk_update (Some 90) None None None);
    UpdateExpense "0" (mk_update (Some 200) None None None);
    AddFunds (-3);
    CreateExpense (mk_create 5 "Rent" "2024-02-01" "key");
    DeleteExpense "1" ].

(** One account with a balance of 60 and no expense. *)
Definition boundary_db : db :=
  mk_db [mk_user 1%N "ann" "pw" "Ann" "a@x" "user" (Some 60)] [] ["Food"] 2%N.

(** A request that fails both checks of [add_expense]. *)
Definition unregistered_request : ExpenseCreate :=
  mk_create 500 "Yachts" "2024-03-01" "too much, and no such category".

(** The state of scenarios B and C: balance 10 and one expense of 90. *)
Definition scenario_c_db : db :=
  mk_db [mk_user 1%N "ann" "pw" "Ann" "a@x" "user" (Some 10)]
        [mk_expense 2%N 1%N 90 "Food" "2024-01-01" "lunch"]
        ["Food"] 3%N.

(** A state reached from registration through the endpoints alone, in which
    the balance is negative. *)
Definition overdrawn_db : db :=
  fst (run_ops "ann"
         [ CreateExpense (mk_create (-5) "Food" "2024-01-01" "refund");
           CreateExpense (mk_create 5 "Food" "2024-01-02" "lunch");
           DeleteExpense "1" ]
         (db_of (run (register (fun x => x) "ann" "pw" "Ann" "a@x") scenario_db))).

(** The body [{}] of a PUT: no field is set. *)
Definition empty_patch : ExpenseUpdate := mk_update None None None None.

(** The character [c] occurs in [s]. *)
Fixpoint occurs (c : ascii) (s : string) : Prop :=
  match s with
  | EmptyString => False
  | String x r => x = c \/ occurs c r
  end.

(** Three expenses of ann, stored out of date order, and one of bob. *)
Definition listing_db : db :=
  mk_db [mk_user 1%N "ann" "pw" "Ann" "a@x" "user" (Some 10);
         mk_user 2%N "bob" "pw" "Bob" "b@x" "user" (Some 0)]
        [mk_expense 3%N 1%N 20 "Food" "2024-01-05" "lunch";
         mk_expense 4%N 2%N 7 "Food" "2024-03-01" "snack";
         mk_expense 5%N 1%N 30 "Rent" "2024-02-01" "key";
         mk_expense 6%N 1%N 40 "Food" "2024-01-20" "dinner"]
        ["Food"; "Rent"] 7%N.

(** The request that has finished with a given outcome. *)
Definition finished {A} (o : outcome A) : prog A :=
  match o with
  | Ok a => Ret a
  | Err e => Raise e
  end.

(** The number of commands a request issues when it runs alone from [s]. *)
Fixpoint steps {A} (m : prog A) (s : db) : nat :=
  match m with
  | Vis c k => let (x, s') := exec c s in S (steps (k x) s')
  | _ => 0%nat
  end.

(** ** Definitions for the further properties *)

(** The amounts an operation submits are not negative. *)
Definition amounts_not_negative (o : op) : Prop :=
  match o with
  | AddFunds _ | DeleteExpense _ => True
  | CreateExpense e => 0 <= c_amount e
  | UpdateExpense _ p =>
      match p_amount p with
      | Some a => 0 <= a
      | None => True
      end
  end.

(** [a] is dated no earlier than [b]. *)
Definition not_earlier (a b : expense_doc) : Prop :=
  String.ltb (date a) (date b) = false.

(** A filter that is given and not empty must hold. *)
Definition on_filter (o : option string) (f : string -> bool) : bool :=
  match o with
  | Some (String c r) => f (String c r)
  | _ => true
  end.

(** The expenses GET /expenses is meant to show: those of the caller that
    pass every filter given. *)
Definition wanted (uid : ObjectId) (cat start stop : option string)
  (e : expense_doc) : bool :=
  oid_eqb (user_id e) uid
  && on_filter cat (fun c => String.eqb (category e) c)
  && on_filter start (fun lo => String.leb lo (date e))
  && on_filter stop (fun hi => String.leb (date e) hi).

(** The account of [sub] holds a balance that is not negative and owns no
    expense of negative amount. *)
Definition solvent (sub : string) (uid : ObjectId) (s : db) : Prop :=
  NoDup (map u_id (users s)) /\
  (exists u, find_user_by_name sub (users s) = Some u /\ u_id u = uid /\
             0 <= get_balance u) /\
  (forall e, In e (expenses s) -> user_id e = uid -> 0 <= amount e).

(** ** The other routes of main.py

    The routes outside the expense and funds endpoints raise further errors
    and issue further pymongo calls.  They are programs over the commands
    above ([Base]) and the ones below; [lift] embeds a program of the first
    kind. *)

Inductive api_error :=
| Core (e : http_error)
| AdminRequired           (* 403 Admin access required *)
| IncorrectLogin          (* 401 Incorrect username or password *)
| InvalidRole             (* 400 Invalid role *)
| CategoryExists.         (* 400 Category already exists *)

Definition api_status_code (e : api_error) : Z :=
  match e with
  | Core c => status_code c
  | AdminRequired => 403
  | IncorrectLogin => 401
  | InvalidRole | CategoryExists => 400
  end.

Inductive admin_cmd : Type -> Type :=
| Base {X : Type} (c : cmd X) : admin_cmd X
| UsersSetRole (name new_role : string) : admin_cmd nat
| UsersDeleteOne (id : ObjectId) : admin_cmd nat
| ExpensesDeleteMany (uid : ObjectId) : admin_cmd nat
| CategoriesInsertOne (name : string) : admin_cmd ObjectId.

Inductive aprog (A : Type) : Type :=
| ARet (a : A)
| ARaise (e : api_error)
| AVis {X : Type} (c : admin_cmd X) (k : X -> aprog A).

Arguments ARet {A} a.
Arguments ARaise {A} e.
Arguments AVis {A X} c k.

Fixpoint abind {A B} (m : aprog A) (f : A -> aprog B) : aprog B :=
  match m with
  | ARet a => f a
  | ARaise e => ARaise e
  | AVis c k => AVis c (fun x => abind (k x) f)
  end.

Fixpoint lift {A} (m : prog A) : aprog A :=
  match m with
  | Ret a => ARet a
  | Raise e => ARaise (Core e)
  | Vis c k => AVis (Base c) (fun x => lift (k x))
  end.

Definition acall {X} (c : admin_cmd X) : aprog X := AVis c ARet.

Definition set_role (u : user_doc) (r : string) : user_doc :=
  mk_user (u_id u) (username u) (password u) (full_name u) (email u) r (balance u).

(** [users_collection.update_one({"username": name}, {"$set": {"role": r}})] *)
Fixpoint set_role_by_name (name r : string) (us : list user_doc)
  : nat * list user_doc :=
  match us with
  | [] => (0%nat, [])
  | u :: rest =>
      if String.eqb (username u) name then (1%nat, set_role u r :: rest)
      else let (n, rest') := set_role_by_name name r rest in (n, u :: rest')
  end.

(** [users_collection.delete_one({"_id": id})] *)
Fixpoint delete_user_doc (id : ObjectId) (us : list user_doc) : nat * list user_doc :=
  match us with
  | [] => (0%nat, [])
  | u :: rest =>
      if oid_eqb (u_id u) id then (1%nat, rest)
      else let (n, rest') := delete_user_doc id rest in (n, u :: rest')
  end.

Definition admin_io {X} (c : admin_cmd X) : io_event :=
  match c with
  | Base b => io_of b
  | UsersSetRole _ _ | UsersDeleteOne _ => (Users, Write)
  | ExpensesDeleteMany _ => (Expenses, Write)
  | CategoriesInsertOne _ => (Categories, Write)
  end.

Definition admin_exec {X} (c : admin_cmd X) (s : db) : X * db :=
  match c in admin_cmd X return X * db with
  | Base b => exec b s
  | UsersSetRole name r =>
      let (n, us) := set_role_by_name name r (users s) in
      (n, mk_db us (expenses s) (categories s) (next_oid s))
  | UsersDeleteOne id =>
      let (n, us) := delete_user_doc id (users s) in
      (n, mk_db us (expenses s) (categories s) (next_oid s))
  | ExpensesDeleteMany uid =>
      let gone := filter (fun e => oid_eqb (user_id e) uid) (expenses s) in
      (List.length gone,
       mk_db (users s)
             (filter (fun e => negb (oid_eqb (user_id e) uid)) (expenses s))
             (categories s) (next_oid s))
  | CategoriesInsertOne name =>
      (next_oid s,
       mk_db (users s) (expenses s) (categories s ++ [name]) (N.succ (next_oid s)))
  end.

Inductive api_outcome (A : Type) : Type :=
| AOk (a : A)
| AErr (e : api_error).
Arguments AOk {A} a.
Arguments AErr {A} e.

Fixpoint arun {A} (m : aprog A) (s : db) : api_outcome A * db * list io_event :=
  match m with
  | ARet a => (AOk a, s, [])
  | ARaise e => (AErr e, s, [])
  | AVis c k =>
      let (x, s') := admin_exec c s in
      let '(o, s'', t) := arun (k x) s' in
      (o, s'', admin_io c :: t)
  end.

Definition aresult_of {A} (r : api_outcome A * db * list io_event) : api_outcome A :=
  fst (fst r).
Definition adb_of {A} (r : api_outcome A * db * list io_event) : db := snd (fst r).
Definition atrace_of {A} (r : api_outcome A * db * list io_event) : list io_event :=
  snd r.

(** [get_current_admin] *)
Definition get_current_admin (sub : string) : aprog user_doc :=
  abind (lift (get_current_user sub)) (fun current_user =>
  if String.eqb (role current_user) "admin" then ARet current_user
  else ARaise AdminRequired).

(** ["/users/me"]: the caller's document, the balance defaulting to 0.0. *)
Record UserMeResponse := mk_me {
  me_user_id : ObjectId;
  me_username : string;
  me_full_name : string;
  me_email : string;
  me_role : string;
  me_balance : Z
}.

(** GET /users/me *)
Definition read_users_me (sub : string) : prog UserMeResponse :=
  current_user <- get_current_user sub ;;
  Ret (mk_me (u_id current_user) (username current_user) (full_name current_user)
         (email current_user) (role current_user) (get_balance current_user)).

(** [authenticate_user]; [verify_password] is passlib's, taken as a parameter. *)
Definition authenticate_user (verify_password : string -> string -> bool)
  (name pw : string) : prog (option user_doc) :=
  user <- call (UsersFindOneByName name) ;;
  match user with
  | None => Ret None
  | Some u => if verify_password pw (password u) then Ret (Some u) else Ret None
  end.

(** POST /login; [create_access_token] signs the sub and role claims. *)
Definition login (verify_password : string -> string -> bool)
  (create_access_token : string -> string -> string)
  (name pw : string) : aprog string :=
  abind (lift (authenticate_user verify_password name pw)) (fun user =>
  match user with
  | None => ARaise IncorrectLogin
  | Some u => ARet (create_access_token (username u) (role u))
  end).

(** POST /categories *)
Definition create_category (name : string) (sub : string) : aprog ObjectId :=
  abind (get_current_admin sub) (fun _ =>
  abind (acall (Base (CategoriesFindOne name))) (fun c =>
  match c with
  | Some _ => ARaise CategoryExists
  | None => acall (CategoriesInsertOne name)
  end)).

(** DELETE /admin/users/{username} *)
Definition delete_user (name : string) (sub : string) : aprog unit :=
  abind (get_current_admin sub) (fun _ =>
  abind (acall (Base (UsersFindOneByName name))) (fun user_to_delete =>
  match user_to_delete with
  | None => ARaise (Core UserNotFound)
  | Some t =>
      abind (acall (ExpensesDeleteMany (u_id t))) (fun _ =>
      abind (acall (UsersDeleteOne (u_id t))) (fun _ =>
      ARet tt))
  end)).

(** POST /admin/promote *)
Definition promote_user (name new_role : string) (sub : string) : aprog unit :=
  abind (get_current_admin sub) (fun _ =>
  if negb (String.eqb new_role "user" || String.eqb new_role "admin")
  then ARaise InvalidRole
  else
    abind (acall (UsersSetRole name new_role)) (fun matched_count =>
    if (matched_count =? 0)%nat then ARaise (Core UserNotFound) else ARet tt)).

(** GET /admin/expenses *)
Definition admin_get_expenses (cat start stop : option string) (sub : string)
  : aprog (list expense_doc) :=
  abind (get_current_admin sub) (fun _ =>
  let q_cat := if truthy cat then cat else None in
  let '(gte, lte) :=
    if truthy start && truthy stop then (start, stop)
    else if truthy start then (start, None)
    else if truthy stop then (None, stop)
    else (None, None) in
  acall (Base (ExpensesFindSorted (mk_query None q_cat gte lte)))).

(** The expenses GET /admin/expenses is meant to show: those of any user
    that pass every filter given. *)
Definition wanted_by_admin (cat start stop : option string) (e : expense_doc) : bool :=
  on_filter cat (fun c => String.eqb (category e) c)
  && on_filter start (fun lo => String.leb lo (date e))
  && on_filter stop (fun hi => String.leb (date e) hi).

(** An account of an administrator, and a second user with two expenses. *)
Definition admin_db : db :=
  mk_db [mk_user 1%N "root" "pw" "Root" "r@x" "admin" (Some 0);
         mk_user 2%N "ann" "pw" "Ann" "a@x" "user" (Some 10);
         mk_user 3%N "bob" "pw" "Bob" "b@x" "user" (Some 5)]
        [mk_expense 4%N 2%N 20 "Food" "2024-01-05" "lunch";
         mk_expense 5%N 3%N 7 "Food" "2024-03-01" "snack";
         mk_expense 6%N 2%N 30 "Rent" "2024-02-01" "key"]
        ["Food"; "Rent"] 7%N.

(** Everything in a user document but its role. *)
Definition but_role (u : user_doc)
  : ObjectId * string * string * string * string * option Z :=
  (u_id u, username u, password u, full_name u, email u, balance u).

(** ** Lemmas on the program monad *)

Lemma run_bind {A B} (m : prog A) (f : A -> prog B) (s : db) :
  run (bind m f) s =
  match result_of (run m s) with
  | Ok a =>
      (result_of (run (f a) (db_of (run m s))),
       db_of (run (f a) (db_of (run m s))),
       (trace_of (run m s) ++ trace_of (run (f a) (db_of (run m s))))%list)
  | Err e => (Err e, db_of (run m s), trace_of (run m s))
  end.
Proof.
  revert s. induction m as [a | e | X c k IH]; intro s; cbn [bind run].
  - unfold result_of, db_of, trace_of; cbn.
    destruct (run (f a) s) as [[o s'] t]; reflexivity.
  - reflexivity.
  - destruct (exec c s) as [x s1]. rewrite IH.
    unfold result_of, db_of, trace_of.
    destruct (run (k x) s1) as [[o s2] t]; cbn.
    destruct o; reflexivity.
Qed.

Lemma run_call {X} (c : cmd X) (s : db) :
  run (call c) s = (Ok (fst (exec c s)), snd (exec c s), [io_of c]).
Proof.
  unfold call; cbn. destruct (exec c s); reflexivity.
Qed.

Lemma run_get_current_user sub s :
  run (get_current_user sub) s =
  match find_user_by_name sub (users s) with
  | Some u => (Ok u, s, [(Users, Read)])
  | None => (Err CredentialsError, s, [(Users, Read)])
  end.
Proof.
  unfold get_current_user; cbn.
  destruct (find_user_by_name sub (users s)); reflexivity.
Qed.

Lemma run_resolve_db expense_id u s :
  db_of (run (resolve_expense_object_id expense_id u) s) = s.
Proof.
  unfold resolve_expense_object_id.
  destruct (ObjectId_of_string (strip expense_id)); [reflexivity|].
  destruct (py_int (strip expense_id)) as [idx|]; [|reflexivity].
  rewrite run_bind, run_call; cbn [exec fst snd result_of db_of trace_of].
  destruct (_ || _); [reflexivity|].
  destruct (nth_error _ _); reflexivity.
Qed.

Lemma run_resolve_reads expense_id u s :
  reads_only (trace_of (run (resolve_expense_object_id expense_id u) s)).
Proof.
  unfold resolve_expense_object_id, reads_only.
  destruct (ObjectId_of_string (strip expense_id)); [constructor|].
  destruct (py_int (strip expense_id)) as [idx|]; [|constructor].
  rewrite run_bind, run_call; cbn [exec fst snd result_of db_of trace_of].
  destruct (_ || _); [repeat constructor|].
  destruct (nth_error _ _); repeat constructor.
Qed.

Lemma update_expense_doc_unmatched id uid p es :
  fst (update_expense_doc id uid p es) = 0%nat ->
  snd (update_expense_doc id uid p es) = es.
Proof.
  induction es as [|e r IH]; cbn; [reflexivity|].
  destruct (owned id uid e); [discriminate|].
  destruct (update_expense_doc id uid p r) as [n r']; cbn in *.
  intro H; rewrite (IH H); reflexivity.
Qed.

Lemma delete_expense_doc_unmatched id uid es :
  fst (delete_expense_doc id uid es) = 0%nat ->
  snd (delete_expense_doc id uid es) = es.
Proof.
  induction es as [|e r IH]; cbn; [reflexivity|].
  destruct (owned id uid e); [discriminate|].
  destruct (delete_expense_doc id uid r) as [n r']; cbn in *.
  intro H; rewrite (IH H); reflexivity.
Qed.

Lemma add_expense_error_no_effect e sub s err :
  result_of (run (add_expense e sub) s) = Err err ->
  db_of (run (add_expense e sub) s) = s.
Proof.
  unfold add_expense.
  rewrite run_bind, run_get_current_user.
  destruct (find_user_by_name sub (users s)) as [u|]; cbn [result_of db_of trace_of fst snd];
    [|reflexivity].
  destruct (get_balance u <? c_amount e); [reflexivity|].
  rewrite run_bind, run_call; cbn [exec fst snd result_of db_of trace_of].
  destruct (find_category _ _); [|reflexivity].
  rewrite run_bind, run_call; cbn [exec fst snd result_of db_of trace_of].
  rewrite run_bind, run_call; cbn [exec fst snd result_of db_of trace_of].
  destruct (inc_balance _ _ _); cbn. discriminate.
Qed.

Ltac exec_step :=
  rewrite run_bind, run_call; cbn [exec fst snd result_of db_of trace_of].

Lemma update_expense_doc_matched id uid p es d :
  find_expense id uid es = Some d ->
  fst (update_expense_doc id uid p es) = 1%nat.
Proof.
  unfold find_expense.
  induction es as [|e r IH]; cbn; [discriminate|].
  destruct (owned id uid e); [reflexivity|].
  intro H. specialize (IH H).
  destruct (update_expense_doc id uid p r); assumption.
Qed.

Lemma delete_expense_doc_matched id uid es d :
  find_expense id uid es = Some d ->
  fst (delete_expense_doc id uid es) = 1%nat.
Proof.
  unfold find_expense.
  induction es as [|e r IH]; cbn; [discriminate|].
  destruct (owned id uid e); [reflexivity|].
  intro H. specialize (IH H).
  destruct (delete_expense_doc id uid r); assumption.
Qed.

Section UpdateRuns.
Variables (sub expense_id : string) (p : ExpenseUpdate) (s : db).

Let r := run (update_expense expense_id p sub) s.

Lemma update_expense_unauthenticated :
  find_user_by_name sub (users s) = None ->
  (result_of r, db_of r) = (Err CredentialsError, s).
Proof.
  intro Hu. subst r. unfold update_expense.
  rewrite run_bind, run_get_current_user, Hu. reflexivity.
Qed.

Variable u : user_doc.
Hypothesis Hauth : find_user_by_name sub (users s) = Some u.

Lemma update_expense_unresolved e :
  result_of (run (resolve_expense_object_id expense_id u) s) = Err e ->
  (result_of r, db_of r) = (Err e, s).
Proof.
  intro Hr. subst r. unfold update_expense.
  rewrite run_bind, run_get_current_user, Hauth; cbn [result_of db_of trace_of fst snd].
  rewrite run_bind, Hr; cbn [result_of db_of trace_of fst snd].
  rewrite run_resolve_db. reflexivity.
Qed.

Variable oid : ObjectId.
Hypothesis Hres :
  result_of (run (resolve_expense_object_id expense_id u) s) = Ok oid.

Lemma update_expense_absent :
  find_expense oid (u_id u) (expenses s) = None ->
  (result_of r, db_of r) = (Err ExpenseNotFound, s).
Proof.
  intro Hf. subst r. unfold update_expense.
  rewrite run_bind, run_get_current_user, Hauth; cbn [result_of db_of trace_of fst snd].
  rewrite run_bind, Hres; cbn [result_of db_of trace_of fst snd].
  rewrite run_resolve_db. exec_step. rewrite Hf. reflexivity.
Qed.

Lemma update_expense_found d :
  find_expense oid (u_id u) (expenses s) = Some d ->
  (result_of r, db_of r) =
  let delta := or_else (p_amount p) (amount d) - amount d in
  if no_fields p then (Err NoFieldsToUpdate, s)
  else if negb (category_ok p (categories s)) then (Err InvalidCategory, s)
  else if get_balance u <? delta then (Err InsufficientFunds, s)
  else (Ok tt,
        mk_db (snd (inc_balance (u_id u) (- delta) (users s)))
              (snd (update_expense_doc oid (u_id u) p (expenses s)))
              (categories s) (next_oid s)).
Proof.
  intro Hf. subst r. unfold update_expense.
  rewrite run_bind, run_get_current_user, Hauth; cbn [result_of db_of trace_of fst snd].
  rewrite run_bind, Hres; cbn [result_of db_of trace_of fst snd].
  rewrite run_resolve_db. exec_step. rewrite Hf.
  cbv zeta.
  destruct (no_fields p); [reflexivity|].
  rewrite run_bind. unfold category_ok.
  destruct (p_category p) as [c|].
  - exec_step. destruct (find_category c (categories s));
      cbn [negb result_of db_of trace_of fst snd run]; [|reflexivity].
    destruct (get_balance u <? _); [reflexivity|].
    exec_step.
    pose proof (update_expense_doc_matched oid (u_id u) p _ _ Hf) as Hm.
    destruct (update_expense_doc oid (u_id u) p (expenses s)) as [n es'].
    cbn in Hm; subst n. cbn [Nat.ltb Nat.leb fst snd].
    exec_step. destruct (inc_balance _ _ _); reflexivity.
  - cbn [negb result_of db_of trace_of fst snd run].
    destruct (get_balance u <? _); [reflexivity|].
    exec_step.
    pose proof (update_expense_doc_matched oid (u_id u) p _ _ Hf) as Hm.
    destruct (update_expense_doc oid (u_id u) p (expenses s)) as [n es'].
    cbn in Hm; subst n. cbn [Nat.ltb Nat.leb fst snd].
    exec_step. destruct (inc_balance _ _ _); reflexivity.
Qed.
End UpdateRuns.

Section DeleteRuns.
Variables (sub expense_id : string) (s : db).

Let r := run (delete_expense expense_id sub) s.

Lemma delete_expense_unauthenticated :
  find_user_by_name sub (users s) = None ->
  (result_of r, db_of r) = (Err CredentialsError, s).
Proof.
  intro Hu. subst r. unfold delete_expense.
  rewrite run_bind, run_get_current_user, Hu. reflexivity.
Qed.

Variable u : user_doc.
Hypothesis Hauth : find_user_by_name sub (users s) = Some u.

Lemma delete_expense_unresolved e :
  result_of (run (resolve_expense_object_id expense_id u) s) = Err e ->
  (result_of r, db_of r) = (Err e, s).
Proof.
  intro Hr. subst r. unfold delete_expense.
  rewrite run_bind, run_get_current_user, Hauth; cbn [result_of db_of trace_of fst snd].
  rewrite run_bind, Hr; cbn [result_of db_of trace_of fst snd].
  rewrite run_resolve_db. reflexivity.
Qed.

Variable oid : ObjectId.
Hypothesis Hres :
  result_of (run (resolve_expense_object_id expense_id u) s) = Ok oid.

Lemma delete_expense_absent :
  find_expense oid (u_id u) (expenses s) = None ->
  (result_of r, db_of r) = (Err ExpenseNotFound, s).
Proof.
  intro Hf. subst r. unfold delete_expense.
  rewrite run_bind, run_get_current_user, Hauth; cbn [result_of db_of trace_of fst snd].
  rewrite run_bind, Hres; cbn [result_of db_of trace_of fst snd].
  rewrite run_resolve_db. exec_step. rewrite Hf. reflexivity.
Qed.

Lemma delete_expense_found d :
  find_expense oid (u_id u) (expenses s) = Some d ->
  (result_of r, db_of r) =
  (Ok tt,
   mk_db (snd (inc_balance (u_id u) (amount d) (users s)))
         (snd (delete_expense_doc oid (u_id u) (expenses s)))
         (categories s) (next_oid s)).
Proof.
  intro Hf. subst r. unfold delete_expense.
  rewrite run_bind, run_get_current_user, Hauth; cbn [result_of db_of trace_of fst snd].
  rewrite run_bind, Hres; cbn [result_of db_of trace_of fst snd].
  rewrite run_resolve_db. exec_step. rewrite Hf.
  exec_step.
  pose proof (delete_expense_doc_matched oid (u_id u) _ _ Hf) as Hm.
  destruct (delete_expense_doc oid (u_id u) (expenses s)) as [n es'].
  cbn in Hm; subst n. cbn [Nat.ltb Nat.leb fst snd].
  exec_step. destruct (inc_balance _ _ _); reflexivity.
Qed.
End DeleteRuns.

Section GetRuns.
Variables (sub expense_id : string) (s : db) (u : user_doc).
Hypothesis Hauth : find_user_by_name sub (users s) = Some u.

Lemma get_expense_unresolved e :
  result_of (run (resolve_expense_object_id expense_id u) s) = Err e ->
  result_of (run (get_expense expense_id sub) s) = Err e.
Proof.
  intro Hr. unfold get_expense.
  rewrite run_bind, run_get_current_user, Hauth; cbn [result_of db_of trace_of fst snd].
  rewrite run_bind, Hr; reflexivity.
Qed.

Lemma get_expense_resolved oid :
  result_of (run (resolve_expense_object_id expense_id u) s) = Ok oid ->
  result_of (run (get_expense expense_id sub) s) =
  match find_expense oid (u_id u) (expenses s) with
  | Some d => Ok d
  | None => Err ExpenseNotFound
  end.
Proof.
  intro Hr. unfold get_expense.
  rewrite run_bind, run_get_current_user, Hauth; cbn [result_of db_of trace_of fst snd].
  rewrite run_bind, Hr; cbn [result_of db_of trace_of fst snd].
  rewrite run_resolve_db. exec_step.
  destruct (find_expense oid (u_id u) (expenses s)); reflexivity.
Qed.
End GetRuns.

Lemma get_expense_db expense_id sub s :
  db_of (run (get_expense expense_id sub) s) = s.
Proof.
  unfold get_expense.
  rewrite run_bind, run_get_current_user.
  destruct (find_user_by_name sub (users s)) as [u|];
    cbn [result_of db_of trace_of fst snd]; [|reflexivity].
  rewrite run_bind.
  destruct (result_of (run (resolve_expense_object_id expense_id u) s)) eqn:Hr;
    cbn [result_of db_of trace_of fst snd]; rewrite run_resolve_db; [|reflexivity].
  exec_step. destruct (find_expense _ _ _); reflexivity.
Qed.

(** The run of [add_expense], branch by branch. *)
Lemma run_add_expense e sub s :
  let r := run (add_expense e sub) s in
  (result_of r, db_of r) =
  match find_user_by_name sub (users s) with
  | None => (Err CredentialsError, s)
  | Some u =>
      if get_balance u <? c_amount e then (Err InsufficientFunds, s)
      else match find_category (c_category e) (categories s) with
           | None => (Err InvalidCategory, s)
           | Some _ =>
               (Ok (next_oid s),
                mk_db (snd (inc_balance (u_id u) (- c_amount e) (users s)))
                      (expenses s ++
                         [mk_expense (next_oid s) (u_id u) (c_amount e)
                            (c_category e) (c_date e) (c_description e)])
                      (categories s) (N.succ (next_oid s)))
           end
  end.
Proof.
  cbv zeta. unfold add_expense.
  rewrite run_bind, run_get_current_user.
  destruct (find_user_by_name sub (users s)) as [u|];
    cbn [result_of db_of trace_of fst snd]; [|reflexivity].
  destruct (get_balance u <? c_amount e); [reflexivity|].
  exec_step.
  destruct (find_category _ _); [|reflexivity].
  exec_step. exec_step.
  destruct (inc_balance _ _ _); reflexivity.
Qed.

(** The run of [add_funds], branch by branch. *)
Lemma run_add_funds a sub s :
  let r := run (add_funds a sub) s in
  (result_of r, db_of r) =
  match find_user_by_name sub (users s) with
  | None => (Err CredentialsError, s)
  | Some u =>
      if a <=? 0 then (Err AmountNotPositive, s)
      else
        let s' := mk_db (snd (inc_balance (u_id u) a (users s)))
                        (expenses s) (categories s) (next_oid s) in
        if (fst (inc_balance (u_id u) a (users s)) =? 0)%nat
        then (Err UserNotFound, s')
        else match find_user_by_id (u_id u) (users s') with
             | Some u' => (Ok (balance u'), s')
             | None => (Err InternalServerError, s')
             end
  end.
Proof.
  cbv zeta. unfold add_funds.
  rewrite run_bind, run_get_current_user.
  destruct (find_user_by_name sub (users s)) as [u|];
    cbn [result_of db_of trace_of fst snd]; [|reflexivity].
  destruct (a <=? 0); [reflexivity|].
  exec_step.
  destruct (inc_balance (u_id u) a (users s)) as [n us'].
  cbn [fst snd]. destruct (n =? 0)%nat; [reflexivity|].
  exec_step. cbn [users].
  destruct (find_user_by_id _ _); reflexivity.
Qed.

(** ** Accounting lemmas *)

(** [$inc] on the account found by name: it is that document which changes. *)
Lemma inc_balance_account sub us u delta :
  NoDup (map u_id us) ->
  find_user_by_name sub us = Some u ->
  fst (inc_balance (u_id u) delta us) = 1%nat /\
  find_user_by_name sub (snd (inc_balance (u_id u) delta us))
    = Some (set_balance u (get_balance u + delta)) /\
  map u_id (snd (inc_balance (u_id u) delta us)) = map u_id us.
Proof.
  unfold find_user_by_name.
  induction us as [|v r IH]; cbn [find inc_balance map]; [discriminate|].
  intros Hnd Hf. inversion Hnd as [|x l Hnotin Hnd']; subst.
  destruct (String.eqb (username v) sub) eqn:Hname.
  - inversion Hf; subst v. unfold oid_eqb. rewrite !N.eqb_refl.
    cbn [fst snd find set_balance username map u_id]. rewrite Hname. auto.
  - destruct (oid_eqb (u_id v) (u_id u)) eqn:Hid.
    + exfalso. apply Hnotin. apply N.eqb_eq in Hid. rewrite Hid.
      apply in_map. apply find_some in Hf. tauto.
    + destruct (IH Hnd' Hf) as (H1 & H2 & H3).
      destruct (inc_balance (u_id u) delta r) as [n r']; cbn in *.
      rewrite Hname. rewrite H3. auto.
Qed.

Lemma find_user_by_id_after_inc id delta us :
  fst (inc_balance id delta us) <> 0%nat ->
  find_user_by_id id (snd (inc_balance id delta us)) <> None.
Proof.
  unfold find_user_by_id.
  induction us as [|v r IH]; cbn [find inc_balance fst snd]; [congruence|].
  destruct (oid_eqb (u_id v) id) eqn:Hid.
  - cbn. rewrite Hid. discriminate.
  - destruct (inc_balance id delta r) as [n r']; cbn in *.
    rewrite Hid. assumption.
Qed.

Lemma spent_app uid es1 es2 :
  spent uid (es1 ++ es2) = spent uid es1 + spent uid es2.
Proof.
  induction es1 as [|e r IH]; cbn [spent app]; [reflexivity|].
  rewrite IH. lia.
Qed.

Lemma spent_update id uid p es d :
  find_expense id uid es = Some d ->
  spent uid (snd (update_expense_doc id uid p es))
  = spent uid es - amount d + or_else (p_amount p) (amount d).
Proof.
  unfold find_expense.
  induction es as [|e r IH]; cbn [find update_expense_doc spent snd]; [discriminate|].
  destruct (owned id uid e) eqn:Ho.
  - intro H; inversion H; subst e. cbn [snd spent apply_set user_id amount].
    unfold owned in Ho. apply andb_true_iff in Ho. destruct Ho as [_ Ho].
    rewrite Ho. lia.
  - intro H. specialize (IH H).
    destruct (update_expense_doc id uid p r) as [n r']. cbn [snd spent] in *. lia.
Qed.

Lemma spent_delete id uid es d :
  find_expense id uid es = Some d ->
  spent uid (snd (delete_expense_doc id uid es)) = spent uid es - amount d.
Proof.
  unfold find_expense.
  induction es as [|e r IH]; cbn [find delete_expense_doc spent snd]; [discriminate|].
  destruct (owned id uid e) eqn:Ho.
  - intro H; inversion H; subst e. cbn [snd].
    unfold owned in Ho. apply andb_true_iff in Ho. destruct Ho as [_ Ho].
    rewrite Ho. lia.
  - intro H. specialize (IH H).
    destruct (delete_expense_doc id uid r) as [n r']. cbn [snd spent] in *. lia.
Qed.

Lemma spent_none uid es :
  (forall e, In e es -> user_id e <> uid) -> spent uid es = 0.
Proof.
  induction es as [|e r IH]; cbn [spent]; [reflexivity|]. intro H.
  destruct (oid_eqb (user_id e) uid) eqn:He.
  - apply N.eqb_eq in He. exfalso. apply (H e); [left; reflexivity | assumption].
  - rewrite IH; [lia|]. intros x Hx. apply H. right; assumption.
Qed.

(** One [$inc] of the caller's balance, on any ledger. *)
Lemma account_inc sub u b delta s es cats n :
  NoDup (map u_id (users s)) ->
  find_user_by_name sub (users s) = Some u ->
  get_balance u = b ->
  account sub (u_id u) (b + delta)
    (mk_db (snd (inc_balance (u_id u) delta (users s))) es cats n).
Proof.
  intros Hnd Hf Hb.
  destruct (inc_balance_account sub (users s) u delta Hnd Hf) as (H1 & H2 & H3).
  split; cbn [users].
  - rewrite H3; assumption.
  - exists (set_balance u (get_balance u + delta)).
    rewrite H2, Hb. cbn. auto.
Qed.

Ltac split_run H :=
  cbv zeta in H; apply pair_equal_spec in H;
  let Hr := fresh "Hres" in let Hd := fresh "Hdb" in destruct H as [Hr Hd].

(** Each operation keeps balance + spent, up to the funds it credits. *)
Lemma run_op_account sub uid b s o :
  account sub uid b s ->
  exists b',
    account sub uid b' (fst (run_op sub o s)) /\
    b' + spent uid (expenses (fst (run_op sub o s)))
    = b + spent uid (expenses s) + snd (run_op sub o s).
Proof.
  intros Hacc. pose proof Hacc as [Hnd (u & Hf & Hid & Hb)].
  assert (Hgb : get_balance u = b) by (unfold get_balance; rewrite Hb; reflexivity).
  destruct o as [a | e | id p | id]; cbn [run_op fst snd].
  - (* add_funds *)
    pose proof (run_add_funds a sub s) as H. rewrite Hf in H.
    destruct (a <=? 0) eqn:Ha.
    + split_run H. rewrite Hres, Hdb. exists b. split; [assumption | lia].
    + destruct (inc_balance_account sub (users s) u a Hnd Hf) as (H1 & _ & _).
      cbv zeta in H. rewrite H1 in H. cbn [Nat.eqb] in H.
      pose proof (find_user_by_id_after_inc (u_id u) a (users s)) as Hfound.
      rewrite H1 in Hfound. cbn [users] in H.
      destruct (find_user_by_id (u_id u) (snd (inc_balance (u_id u) a (users s))))
        as [u'|]; [|exfalso; apply Hfound; [discriminate | reflexivity]].
      split_run H. rewrite Hres, Hdb. exists (b + a). split.
      * subst uid. apply account_inc; assumption.
      * cbn [expenses]. lia.
  - (* add_expense *)
    pose proof (run_add_expense e sub s) as H. rewrite Hf in H.
    destruct (get_balance u <? c_amount e).
    + split_run H. rewrite Hdb. exists b. split; [assumption | lia].
    + destruct (find_category (c_category e) (categories s)).
      * split_run H. rewrite Hdb. exists (b + - c_amount e). split.
        -- subst uid. apply account_inc; assumption.
        -- cbn [expenses]. rewrite spent_app. cbn [spent user_id amount].
           subst uid. unfold oid_eqb. rewrite N.eqb_refl. lia.
      * split_run H. rewrite Hdb. exists b. split; [assumption | lia].
  - (* update_expense *)
    destruct (result_of (run (resolve_expense_object_id id u) s)) as [oid|err] eqn:Hr.
    + destruct (find_expense oid (u_id u) (expenses s)) as [d|] eqn:Hd.
      * pose proof (update_expense_found sub id p s u Hf oid Hr d Hd) as H.
        cbv zeta in H.
        destruct (no_fields p);
          [split_run H; rewrite Hdb; exists b; split; [assumption | lia]|].
        destruct (negb (category_ok p (categories s)));
          [split_run H; rewrite Hdb; exists b; split; [assumption | lia]|].
        destruct (get_balance u <? _);
          [split_run H; rewrite Hdb; exists b; split; [assumption | lia]|].
        split_run H. rewrite Hdb.
        exists (b + - (or_else (p_amount p) (amount d) - amount d)). split.
        -- subst uid. apply account_inc; assumption.
        -- cbn [expenses]. subst uid. rewrite (spent_update _ _ _ _ _ Hd). lia.
      * pose proof (update_expense_absent sub id p s u Hf oid Hr Hd) as H.
        split_run H. rewrite Hdb. exists b. split; [assumption | lia].
    + pose proof (update_expense_unresolved sub id p s u Hf err Hr) as H.
      split_run H. rewrite Hdb. exists b. split; [assumption | lia].
  - (* delete_expense *)
    destruct (result_of (run (resolve_expense_object_id id u) s)) as [oid|err] eqn:Hr.
    + destruct (find_expense oid (u_id u) (expenses s)) as [d|] eqn:Hd.
      * pose proof (delete_expense_found sub id s u Hf oid Hr d Hd) as H.
        split_run H. rewrite Hdb. exists (b + amount d). split.
        -- subst uid. apply account_inc; assumption.
        -- cbn [expenses]. subst uid. rewrite (spent_delete _ _ _ _ Hd). lia.
      * pose proof (delete_expense_absent sub id s u Hf oid Hr Hd) as H.
        split_run H. rewrite Hdb. exists b. split; [assumption | lia].
    + pose proof (delete_expense_unresolved sub id s u Hf err Hr) as H.
      split_run H. rewrite Hdb. exists b. split; [assumption | lia].
Qed.

Lemma run_ops_account sub uid ops : forall b s,
  account sub uid b s ->
  exists b',
    account sub uid b' (fst (run_ops sub ops s)) /\
    b' + spent uid (expenses (fst (run_ops sub ops s)))
    = b + spent uid (expenses s) + snd (run_ops sub ops s).
Proof.
  induction ops as [|o r IH]; intros b s Hacc; cbn [run_ops].
  - exists b. cbn. split; [assumption | lia].
  - destruct (run_op_account sub uid b s o Hacc) as (b1 & Hacc1 & Heq1).
    destruct (run_op sub o s) as [s1 a]. cbn [fst snd] in *.
    destruct (IH b1 s1 Hacc1) as (b2 & Hacc2 & Heq2).
    destruct (run_ops sub r s1) as [s2 c]. cbn [fst snd] in *.
    exists b2. split; [assumption | lia].
Qed.

Lemma find_app_none {A} (f : A -> bool) l x :
  find f l = None -> find f (l ++ [x]) = if f x then Some x else None.
Proof.
  induction l as [|y r IH]; cbn; [reflexivity|].
  destruct (f y); [discriminate | assumption].
Qed.

Lemma NoDup_snoc {A} (l : list A) x : NoDup l -> ~ In x l -> NoDup (l ++ [x]).
Proof.
  induction l as [|y r IH]; cbn; intros Hnd Hx.
  - constructor; [tauto | constructor].
  - inversion Hnd; subst. constructor.
    + rewrite in_app_iff. cbn. intuition congruence.
    + apply IH; tauto.
Qed.

(** Registration leaves a fresh account: balance 0.0 and no expense. *)
Lemma register_account h name pw fn mail s uid :
  db_wf s ->
  result_of (run (register h name pw fn mail) s) = Ok uid ->
  account name uid 0 (db_of (run (register h name pw fn mail) s)) /\
  spent uid (expenses (db_of (run (register h name pw fn mail) s))) = 0.
Proof.
  intros (Hnd & _ & Hu & He). unfold register.
  exec_step. fold (find_user_by_name name (users s)).
  destruct (find_user_by_name name (users s)) eqn:Hname;
    cbn [result_of db_of trace_of fst snd run]; [discriminate|].
  exec_step. destruct (find _ (users s));
    cbn [result_of db_of trace_of fst snd run]; [discriminate|].
  rewrite run_call. cbn [exec fst snd result_of db_of].
  intro H; inversion H; subst uid; clear H.
  split; [split|]; cbn [users expenses].
  - rewrite map_app. apply NoDup_snoc; [assumption|].
    cbn. intro Hin. apply in_map_iff in Hin. destruct Hin as (v & Hv & Hin).
    apply Hu in Hin. lia.
  - eexists. split.
    + unfold find_user_by_name in *. rewrite (find_app_none _ _ _ Hname).
      cbn. rewrite String.eqb_refl. reflexivity.
    + split; reflexivity.
  - apply spent_none. intros e Hin. apply He in Hin. lia.
Qed.

(** ** The claims *)

(** Scenarios A to D of the specification, one request after the other. *)
Example scenarios_A_to_D :
  let s0 := db_of (run (register (fun x => x) "ann" "pw" "Ann" "a@x") scenario_db) in
  let sA := fst (run_ops "ann"
                   [AddFunds 100;
                    CreateExpense (mk_create 40 "Food" "2024-01-01" "lunch")] s0) in
  let sB := db_of (run (update_expense "000000000000000000000002"
                          (mk_update (Some 90) None None None) "ann") sA) in
  let rC := run (update_expense "000000000000000000000002"
                   (mk_update (Some 200) None None None) "ann") sB in
  let sD := db_of (run (delete_expense "000000000000000000000002" "ann") sB) in
  account "ann" 1%N 60 sA /\ List.length (expenses sA) = 1%nat /\
  account "ann" 1%N 10 sB /\
  result_of rC = Err InsufficientFunds /\ db_of rC = sB /\
  account "ann" 1%N 100 sD /\ expenses sD = [].
Proof.
  cbv zeta.
  assert (Hnd : NoDup [1%N]) by (constructor; [intros [] | constructor]).
  repeat split; try reflexivity; try exact Hnd; eexists; repeat split; reflexivity.
Qed.


Lemma scenario_db_wf : db_wf scenario_db.
Proof.
  unfold db_wf, fresh_from; cbn.
  split; [constructor|]. split; [constructor|].
  split; intros ? [].
Defined.




(** C6, as the code has it.  CreateExpense checks the funds before the
    category: a request naming an unregistered category fails with
    InsufficientFunds when its amount exceeds the balance (the categories are
    then never consulted) and with InvalidCategory otherwise; either way
    nothing is written. *)
Theorem create_expense_checks_funds_first (s : db) (sub : string) (u : user_doc)
  (e : ExpenseCreate) :
  find_user_by_name sub (users s) = Some u ->
  find_category (c_category e) (categories s) = None ->
  run (add_expense e sub) s =
  if get_balance u <? c_amount e
  then (Err InsufficientFunds, s, [(Users, Read)])
  else (Err InvalidCategory, s, [(Users, Read); (Categories, Read)]).
Proof.
  intros Hf Hc. unfold add_expense.
  rewrite run_bind, run_get_current_user, Hf; cbn [result_of db_of trace_of fst snd].
  destruct (get_balance u <? c_amount e); [reflexivity|].
  exec_step. rewrite Hc. reflexivity.
Qed.

(** C6 as stated fails: the category is unregistered and the amount exceeds
    the balance, yet the error is InsufficientFunds. *)
Lemma create_expense_category_not_first :
  find_category (c_category unregistered_request) (categories boundary_db) = None /\
  result_of (run (add_expense unregistered_request "ann") boundary_db)
    = Err InsufficientFunds /\
  result_of (run (add_expense unregistered_request "ann") boundary_db)
    <> Err InvalidCategory.
Proof.
  split; [reflexivity|]. split; [reflexivity | discriminate].
Qed.

Lemma create_expense_checks_funds_first_witness :
  run (add_expense unregistered_request "ann") boundary_db
  = (Err InsufficientFunds, boundary_db, [(Users, Read)]).
Proof.
  exact (create_expense_checks_funds_first boundary_db "ann"
           (mk_user 1%N "ann" "pw" "Ann" "a@x" "user" (Some 60))
           unregistered_request eq_refl eq_refl).
Defined.

(** C5 at the failing input.  A request with amount -5 and a registered
    category, on a balance of 0, is accepted: a ledger record with amount -5
    is inserted and the balance rises to 5.  [add_funds] rejects the same
    amount with "Amount must be positive". *)
Theorem create_expense_accepts_negative_amount :
  let s := mk_db [mk_user 1%N "ann" "pw" "Ann" "a@x" "user" (Some 0)] [] ["Food"] 2%N in
  let r := run (add_expense (mk_create (-5) "Food" "2024-03-01" "refund") "ann") s in
  result_of r = Ok 2%N /\
  expenses (db_of r) = [mk_expense 2%N 1%N (-5) "Food" "2024-03-01" "refund"] /\
  users (db_of r) = [mk_user 1%N "ann" "pw" "Ann" "a@x" "user" (Some 5)] /\
  result_of (run (add_funds (-5) "ann") s) = Err AmountNotPositive.
Proof.
  cbv zeta. repeat split; reflexivity.
Qed.

(** C7.  Whenever CreateExpense, UpdateExpense or DeleteExpense answers with
    an error, the database (ledger and balances) is exactly as it was before
    the call. *)
Theorem validation_failure_has_no_effect (s : db) (sub : string) (err : http_error) :
  (forall e,
     result_of (run (add_expense e sub) s) = Err err ->
     db_of (run (add_expense e sub) s) = s) /\
  (forall id p,
     result_of (run (update_expense id p sub) s) = Err err ->
     db_of (run (update_expense id p sub) s) = s) /\
  (forall id,
     result_of (run (delete_expense id sub) s) = Err err ->
     db_of (run (delete_expense id sub) s) = s).
Proof.
  split; [|split].
  - intros e. apply add_expense_error_no_effect.
  - intros id p Herr.
    destruct (find_user_by_name sub (users s)) as [u|] eqn:Hf.
    + destruct (result_of (run (resolve_expense_object_id id u) s)) as [oid|e] eqn:Hr.
      * destruct (find_expense oid (u_id u) (expenses s)) as [d|] eqn:Hd.
        -- pose proof (update_expense_found sub id p s u Hf oid Hr d Hd) as H.
           cbv zeta in H.
           destruct (no_fields p); [split_run H; assumption|].
           destruct (negb _); [split_run H; assumption|].
           destruct (_ <? _); [split_run H; assumption|].
           split_run H. congruence.
        -- pose proof (update_expense_absent sub id p s u Hf oid Hr Hd) as H.
           split_run H; assumption.
      * pose proof (update_expense_unresolved sub id p s u Hf e Hr) as H.
        split_run H; assumption.
    + pose proof (update_expense_unauthenticated sub id p s Hf) as H.
      split_run H; assumption.
  - intros id Herr.
    destruct (find_user_by_name sub (users s)) as [u|] eqn:Hf.
    + destruct (result_of (run (resolve_expense_object_id id u) s)) as [oid|e] eqn:Hr.
      * destruct (find_expense oid (u_id u) (expenses s)) as [d|] eqn:Hd.
        -- pose proof (delete_expense_found sub id s u Hf oid Hr d Hd) as H.
           split_run H. congruence.
        -- pose proof (delete_expense_absent sub id s u Hf oid Hr Hd) as H.
           split_run H; assumption.
      * pose proof (delete_expense_unresolved sub id s u Hf e Hr) as H.
        split_run H; assumption.
    + pose proof (delete_expense_unauthenticated sub id s Hf) as H.
      split_run H; assumption.
Qed.

Lemma validation_failure_has_no_effect_witness :
  db_of (run (update_expense "0" (mk_update (Some 200) None None None) "ann")
           scenario_c_db) = scenario_c_db /\
  db_of (run (add_expense (mk_create 11 "Food" "2024-01-02" "tea") "ann")
           scenario_c_db) = scenario_c_db /\
  db_of (run (delete_expense "5" "ann") scenario_c_db) = scenario_c_db.
Proof.
  split; [|split].
  - apply (proj1 (proj2 (validation_failure_has_no_effect scenario_c_db "ann"
                           InsufficientFunds))). reflexivity.
  - apply (proj1 (validation_failure_has_no_effect scenario_c_db "ann"
                    InsufficientFunds)). reflexivity.
  - apply (proj2 (proj2 (validation_failure_has_no_effect scenario_c_db "ann"
                           IndexOutOfRange))). reflexivity.
Defined.







(** ** Lemmas on the path parameter *)

Lemma occurs_lstrip c s : occurs c (lstrip s) -> occurs c s.
Proof.
  induction s as [|x r IH]; cbn; [tauto|].
  destruct (is_space x); cbn; tauto.
Qed.

Lemma occurs_rev_append c s : forall acc,
  occurs c (rev_append s acc) <-> occurs c s \/ occurs c acc.
Proof.
  induction s as [|x r IH]; intro acc; cbn; [tauto|].
  rewrite IH. cbn. tauto.
Qed.

Lemma occurs_rev c s : occurs c (rev s) <-> occurs c s.
Proof.
  unfold rev. rewrite occurs_rev_append. cbn. tauto.
Qed.

Lemma occurs_strip c s : occurs c (strip s) -> occurs c s.
Proof.
  unfold strip, rstrip. intro H.
  apply occurs_lstrip in H. apply (proj1 (occurs_rev _ _)) in H.
  apply occurs_lstrip in H. apply (proj1 (occurs_rev _ _)) in H. assumption.
Qed.

Lemma hex_value_occurs c s : forall acc,
  occurs c s -> hex_digit c = None -> hex_value s acc = None.
Proof.
  induction s as [|x r IH]; intros acc; cbn; [tauto|].
  intros [Hx | Hr] Hc.
  - subst x. rewrite Hc. reflexivity.
  - destruct (hex_digit x); [apply IH; assumption | reflexivity].
Qed.

Lemma int_digits_nonneg s : forall prev acc z,
  0 <= acc -> int_digits s prev acc = Some z -> 0 <= z.
Proof.
  induction s as [|x r IH]; intros prev acc z Hacc; cbn [int_digits].
  - destruct prev; [intro H; inversion H; lia | discriminate].
  - destruct (Ascii.eqb x "_").
    + destruct prev; [apply IH; assumption | discriminate].
    + unfold dec_digit. destruct (_ && _)%bool; [|discriminate].
      apply IH. lia.
Qed.

(** A text that [int] reads as a negative number has a minus sign, so it is
    not an [ObjectId]. *)
Lemma negative_int_not_ObjectId t z :
  py_int t = Some z -> z < 0 -> ObjectId_of_string t = None.
Proof.
  unfold py_int, ObjectId_of_string. intros Hint Hneg.
  destruct (String.length t =? 24)%nat; [|reflexivity].
  apply hex_value_occurs with (c := "-"%char); [|reflexivity].
  apply occurs_strip.
  destruct (strip t) as [|c r]; [discriminate|].
  destruct (Ascii.eqb c "-") eqn:Hc.
  - apply Ascii.eqb_eq in Hc. left; assumption.
  - exfalso. destruct (Ascii.eqb c "+").
    + apply int_digits_nonneg in Hint; lia.
    + apply int_digits_nonneg in Hint; lia.
Qed.

Lemma run_resolve_negative expense_id u s z :
  py_int (strip expense_id) = Some z -> z < 0 ->
  run (resolve_expense_object_id expense_id u) s
  = (Err IndexOutOfRange, s, [(Expenses, Read)]).
Proof.
  intros Hint Hneg. unfold resolve_expense_object_id.
  rewrite (negative_int_not_ObjectId _ _ Hint Hneg), Hint.
  exec_step.
  apply Z.ltb_lt in Hneg. rewrite Hneg. reflexivity.
Qed.



(** ** Lemmas on the listing *)

Lemma In_insert_desc x e l : In x (insert_desc e l) <-> x = e \/ In x l.
Proof.
  induction l as [|y r IH]; cbn [insert_desc].
  - cbn. intuition congruence.
  - destruct (String.ltb (date e) (date y)); cbn [In]; [rewrite IH|];
      intuition congruence.
Qed.

Lemma In_sort_desc x l : In x (sort_desc l) <-> In x l.
Proof.
  induction l as [|y r IH]; cbn [sort_desc]; [tauto|].
  rewrite In_insert_desc, IH. cbn. intuition congruence.
Qed.

Lemma find_sorted_In q es e :
  In e (find_sorted q es) <-> In e es /\ matches q e = true.
Proof.
  unfold find_sorted. rewrite In_sort_desc. apply filter_In.
Qed.

(** With unique [_id]s, [find_one] by the id of a document of the caller
    returns that document. *)
Lemma find_expense_unique es e uid :
  NoDup (map e_id es) -> In e es -> user_id e = uid ->
  find_expense (e_id e) uid es = Some e.
Proof.
  unfold find_expense. intros Hnd Hin Hu.
  induction es as [|x r IH]; [destruct Hin|].
  inversion Hnd as [|a l Hnotin Hnd']; subst. cbn [find].
  destruct Hin as [Heq | Hin].
  - subst x. unfold owned, oid_eqb. rewrite !N.eqb_refl. reflexivity.
  - destruct (owned (e_id e) (user_id e) x) eqn:Ho.
    + exfalso. apply Hnotin. unfold owned, oid_eqb in Ho.
      apply andb_true_iff in Ho. destruct Ho as [Ho _]. apply N.eqb_eq in Ho.
      rewrite Ho. apply in_map. assumption.
    + apply IH; assumption.
Qed.

(** The listing [get_expenses] returns when no filter is given. *)
Lemma run_get_expenses_all sub s u :
  find_user_by_name sub (users s) = Some u ->
  result_of (run (get_expenses None None None sub) s)
  = Ok (find_sorted (mk_query (Some (u_id u)) None None None) (expenses s)).
Proof.
  intro Hf. unfold get_expenses.
  rewrite run_bind, run_get_current_user, Hf; cbn [result_of db_of trace_of fst snd].
  cbn [truthy andb]. rewrite run_call. reflexivity.
Qed.

Lemma run_resolve_native expense_id u s oid :
  ObjectId_of_string (strip expense_id) = Some oid ->
  run (resolve_expense_object_id expense_id u) s = (Ok oid, s, []).
Proof.
  intro H. unfold resolve_expense_object_id. rewrite H. reflexivity.
Qed.

Lemma run_resolve_index expense_id u s idx :
  ObjectId_of_string (strip expense_id) = None ->
  py_int (strip expense_id) = Some idx ->
  0 <= idx ->
  let listing := find_sorted (mk_query (Some (u_id u)) None None None) (expenses s) in
  run (resolve_expense_object_id expense_id u) s =
  (match nth_error listing (Z.to_nat idx) with
   | Some e => Ok (e_id e)
   | None => Err IndexOutOfRange
   end, s, [(Expenses, Read)]).
Proof.
  intros Hoid Hint Hpos listing. unfold resolve_expense_object_id.
  rewrite Hoid, Hint. exec_step. fold listing.
  replace (idx <? 0) with false by (symmetry; apply Z.ltb_ge; assumption).
  cbn [orb].
  destruct (Z.of_nat (List.length listing) <=? idx) eqn:Hlen.
  - apply Z.leb_le in Hlen.
    assert (Hn : nth_error listing (Z.to_nat idx) = None)
      by (apply nth_error_None; lia).
    rewrite Hn. reflexivity.
  - apply Z.leb_gt in Hlen.
    destruct (nth_error listing (Z.to_nat idx)) eqn:Hn; [reflexivity|].
    apply nth_error_None in Hn. lia.
Qed.



(** A text of 24 hexadecimal digits is always taken for a native id, also
    when every digit is decimal: it is looked up by [_id], never counted as
    a position. *)
Example native_id_takes_precedence :
  result_of (run (get_expense "000000000000000000000000" "ann") listing_db)
    = Err ExpenseNotFound /\
  result_of (run (get_expense "0" "ann") listing_db)
    = Ok (mk_expense 5%N 1%N 30 "Rent" "2024-02-01" "key") /\
  result_of (run (get_expense "000000000000000000000004" "ann") listing_db)
    = Err ExpenseNotFound /\
  result_of (run (get_expense "000000000000000000000004" "bob") listing_db)
    = Ok (mk_expense 4%N 2%N 7 "Food" "2024-03-01" "snack").
Proof.
  repeat split; reflexivity.
Qed.

(** ** Serial schedules *)

Lemma set_nth_same {A} (l : list A) : forall i x,
  nth_error l i = Some x -> set_nth i x l = l.
Proof.
  induction l as [|y r IH]; intros [|i] x; cbn; try discriminate.
  - intro H; inversion H; reflexivity.
  - intro H. rewrite (IH _ _ H). reflexivity.
Qed.

Lemma nth_error_set_nth {A} (l : list A) : forall i x y,
  nth_error l i = Some y -> nth_error (set_nth i x l) i = Some x.
Proof.
  induction l as [|z r IH]; intros [|i] x y; cbn; try discriminate.
  - reflexivity.
  - apply IH.
Qed.

Lemma set_nth_twice {A} (l : list A) : forall i x y,
  set_nth i x (set_nth i y l) = set_nth i x l.
Proof.
  induction l as [|z r IH]; intros [|i] x y; cbn; try reflexivity.
  rewrite IH. reflexivity.
Qed.

(** Scheduling one request until it ends is running it. *)
Lemma run_sched_alone {A} (m : prog A) : forall (p : pool A) (s : db) (i : nat),
  nth_error p i = Some m ->
  run_sched (repeat i (steps m s)) p s
  = (set_nth i (finished (result_of (run m s))) p, db_of (run m s)).
Proof.
  induction m as [a | e | X c k IH]; intros p s i Hi; cbn [steps repeat run_sched].
  - cbn. rewrite (set_nth_same _ _ _ Hi). reflexivity.
  - cbn. rewrite (set_nth_same _ _ _ Hi). reflexivity.
  - cbn [run]. destruct (exec c s) as [x s'] eqn:Hex.
    cbn [repeat run_sched]. unfold step_request. rewrite Hi, Hex.
    rewrite (IH x (set_nth i (k x) p) s' i (nth_error_set_nth _ _ _ _ Hi)).
    rewrite set_nth_twice.
    unfold result_of, db_of.
    destruct (run (k x) s') as [[o s''] t]. reflexivity.
Qed.

Lemma run_sched_app {A} (a b : list nat) : forall (p : pool A) (s : db),
  run_sched (a ++ b) p s = run_sched b (fst (run_sched a p s)) (snd (run_sched a p s)).
Proof.
  induction a as [|i r IH]; intros p s; cbn [app run_sched fst snd]; [reflexivity|].
  destruct (step_request i p s) as [p' s']. apply IH.
Qed.




(** * Further properties of the modelled endpoints *)

(** ** add_funds *)

Lemma inc_balance_unmatched id delta us :
  fst (inc_balance id delta us) = 0%nat -> snd (inc_balance id delta us) = us.
Proof.
  induction us as [|v r IH]; cbn [inc_balance fst snd]; [reflexivity|].
  destruct (oid_eqb (u_id v) id); [discriminate|].
  destruct (inc_balance id delta r) as [n r']; cbn [fst snd] in *.
  intro H. rewrite (IH H). reflexivity.
Qed.

Lemma inc_balance_matched id delta us :
  (exists v, In v us /\ u_id v = id) -> fst (inc_balance id delta us) = 1%nat.
Proof.
  induction us as [|v r IH]; cbn [inc_balance fst]; intros (w & Hin & Hid).
  - destruct Hin.
  - destruct (oid_eqb (u_id v) id) eqn:Hv; [reflexivity|].
    destruct Hin as [Heq | Hin].
    + subst w. unfold oid_eqb in Hv. rewrite Hid, N.eqb_refl in Hv. discriminate.
    + assert (H : fst (inc_balance id delta r) = 1%nat) by (apply IH; eauto).
      destruct (inc_balance id delta r); assumption.
Qed.

Lemma inc_balance_ids id delta us :
  map u_id (snd (inc_balance id delta us)) = map u_id us.
Proof.
  induction us as [|v r IH]; cbn [inc_balance snd map]; [reflexivity|].
  destruct (oid_eqb (u_id v) id); [reflexivity|].
  destruct (inc_balance id delta r) as [n r']; cbn [snd map] in *.
  rewrite IH. reflexivity.
Qed.

(** [$inc] leaves the documents of the other ids alone. *)
Lemma inc_balance_other id other delta us :
  other <> id ->
  find_user_by_id other (snd (inc_balance id delta us)) = find_user_by_id other us.
Proof.
  intro Hne. unfold find_user_by_id.
  induction us as [|v r IH]; cbn [inc_balance snd find]; [reflexivity|].
  destruct (oid_eqb (u_id v) id) eqn:Hv.
  - cbn [snd find set_balance u_id].
    destruct (oid_eqb (u_id v) other) eqn:Ho; [|reflexivity].
    unfold oid_eqb in *. apply N.eqb_eq in Hv, Ho. congruence.
  - destruct (inc_balance id delta r) as [n r']; cbn [snd find] in *.
    rewrite IH. reflexivity.
Qed.

Lemma find_user_by_id_account sub us u :
  NoDup (map u_id us) ->
  find_user_by_name sub us = Some u ->
  find_user_by_id (u_id u) us = Some u.
Proof.
  unfold find_user_by_name, find_user_by_id. intros Hnd Hf.
  induction us as [|v r IH]; cbn [find] in *; [discriminate|].
  inversion Hnd as [|x l Hnotin Hnd']; subst.
  destruct (String.eqb (username v) sub).
  - inversion Hf; subst v. unfold oid_eqb. rewrite N.eqb_refl. reflexivity.
  - destruct (oid_eqb (u_id v) (u_id u)) eqn:Hid.
    + exfalso. apply Hnotin. unfold oid_eqb in Hid. apply N.eqb_eq in Hid.
      rewrite Hid. apply in_map. apply find_some in Hf. tauto.
    + apply IH; assumption.
Qed.





(** ** register *)

(** The run of [register], branch by branch. *)
Lemma run_register h name pw fn mail s :
  let r := run (register h name pw fn mail) s in
  (result_of r, db_of r) =
  match find_user_by_name name (users s) with
  | Some _ => (Err UsernameRegistered, s)
  | None =>
      match find (fun u => String.eqb (email u) mail) (users s) with
      | Some _ => (Err EmailRegistered, s)
      | None =>
          (Ok (next_oid s),
           mk_db (users s ++ [mk_user (next_oid s) name (h pw) fn mail "user" (Some 0)])
                 (expenses s) (categories s) (N.succ (next_oid s)))
      end
  end.
Proof.
  cbv zeta. unfold register.
  exec_step. fold (find_user_by_name name (users s)).
  destruct (find_user_by_name name (users s));
    cbn [result_of db_of trace_of fst snd run]; [reflexivity|].
  exec_step. destruct (find _ (users s));
    cbn [result_of db_of trace_of fst snd run]; [reflexivity|].
  rewrite run_call. reflexivity.
Qed.

Lemma find_none_not_in {A} (g : A -> string) (x : string) (l : list A) :
  find (fun a => String.eqb (g a) x) l = None -> ~ In x (map g l).
Proof.
  intros Hf Hin. apply in_map_iff in Hin. destruct Hin as (a & Hg & Hin).
  pose proof (find_none _ _ Hf a Hin) as H. cbn in H.
  rewrite Hg, String.eqb_refl in H. discriminate.
Qed.



(** ** What one operation does to the database *)

Lemma find_expense_owner id uid es d :
  find_expense id uid es = Some d -> e_id d = id /\ user_id d = uid /\ In d es.
Proof.
  unfold find_expense, owned, oid_eqb. intro H. apply find_some in H.
  destruct H as [Hin H]. apply andb_true_iff in H. destruct H as [H1 H2].
  apply N.eqb_eq in H1, H2. auto.
Qed.

(** Either nothing changes, or the caller's balance is [$inc]'ed by [delta]
    and the ledger changes in the one way the operation allows. *)
Lemma run_op_effect sub o s :
  fst (run_op sub o s) = s \/
  exists u delta es' n',
    find_user_by_name sub (users s) = Some u /\
    fst (run_op sub o s)
    = mk_db (snd (inc_balance (u_id u) delta (users s))) es' (categories s) n' /\
    ((exists a, o = AddFunds a /\ 0 < a /\ delta = a /\
                es' = expenses s /\ n' = next_oid s) \/
     (exists e, o = CreateExpense e /\ c_amount e <= get_balance u /\
                delta = - c_amount e /\
                es' = (expenses s ++
                         [mk_expense (next_oid s) (u_id u) (c_amount e)
                            (c_category e) (c_date e) (c_description e)])%list /\
                n' = N.succ (next_oid s)) \/
     (exists id p oid d, o = UpdateExpense id p /\
                find_expense oid (u_id u) (expenses s) = Some d /\
                delta = - (or_else (p_amount p) (amount d) - amount d) /\
                - delta <= get_balance u /\
                es' = snd (update_expense_doc oid (u_id u) p (expenses s)) /\
                n' = next_oid s) \/
     (exists id oid d, o = DeleteExpense id /\
                find_expense oid (u_id u) (expenses s) = Some d /\
                delta = amount d /\
                es' = snd (delete_expense_doc oid (u_id u) (expenses s)) /\
                n' = next_oid s)).
Proof.
  destruct o as [a | e | id p | id]; cbn [run_op fst snd].
  - pose proof (run_add_funds a sub s) as H. cbv zeta in H.
    destruct (find_user_by_name sub (users s)) as [u|] eqn:Hf;
      [|left; apply pair_equal_spec in H; tauto].
    destruct (a <=? 0) eqn:Ha; [left; apply pair_equal_spec in H; tauto|].
    apply Z.leb_gt in Ha.
    right. exists u, a, (expenses s), (next_oid s). split; [reflexivity|].
    split.
    + destruct (_ =? _)%nat; [apply pair_equal_spec in H; tauto|].
      destruct (find_user_by_id _ _); apply pair_equal_spec in H; tauto.
    + left. exists a. auto.
  - pose proof (run_add_expense e sub s) as H. cbv zeta in H.
    destruct (find_user_by_name sub (users s)) as [u|] eqn:Hf;
      [|left; apply pair_equal_spec in H; tauto].
    destruct (get_balance u <? c_amount e) eqn:Hlt;
      [left; apply pair_equal_spec in H; tauto|].
    apply Z.ltb_ge in Hlt.
    destruct (find_category _ _); [|left; apply pair_equal_spec in H; tauto].
    right. exists u, (- c_amount e). eexists. eexists. split; [reflexivity|].
    split; [apply pair_equal_spec in H; apply (proj2 H)|].
    right; left. exists e. auto.
  - destruct (find_user_by_name sub (users s)) as [u|] eqn:Hf.
    2:{ left. pose proof (update_expense_unauthenticated sub id p s Hf) as H.
        apply pair_equal_spec in H; tauto. }
    destruct (result_of (run (resolve_expense_object_id id u) s)) as [oid|err] eqn:Hr.
    2:{ left. pose proof (update_expense_unresolved sub id p s u Hf err Hr) as H.
        apply pair_equal_spec in H; tauto. }
    destruct (find_expense oid (u_id u) (expenses s)) as [d|] eqn:Hd.
    2:{ left. pose proof (update_expense_absent sub id p s u Hf oid Hr Hd) as H.
        apply pair_equal_spec in H; tauto. }
    pose proof (update_expense_found sub id p s u Hf oid Hr d Hd) as H.
    cbv zeta in H.
    destruct (no_fields p); [left; apply pair_equal_spec in H; tauto|].
    destruct (negb _); [left; apply pair_equal_spec in H; tauto|].
    destruct (get_balance u <? _) eqn:Hlt; [left; apply pair_equal_spec in H; tauto|].
    apply Z.ltb_ge in Hlt.
    right. exists u. eexists. eexists. eexists. split; [reflexivity|].
    split; [apply pair_equal_spec in H; apply (proj2 H)|].
    right; right; left. exists id, p, oid, d.
    repeat split; try reflexivity; try assumption. lia.
  - destruct (find_user_by_name sub (users s)) as [u|] eqn:Hf.
    2:{ left. pose proof (delete_expense_unauthenticated sub id s Hf) as H.
        apply pair_equal_spec in H; tauto. }
    destruct (result_of (run (resolve_expense_object_id id u) s)) as [oid|err] eqn:Hr.
    2:{ left. pose proof (delete_expense_unresolved sub id s u Hf err Hr) as H.
        apply pair_equal_spec in H; tauto. }
    destruct (find_expense oid (u_id u) (expenses s)) as [d|] eqn:Hd.
    2:{ left. pose proof (delete_expense_absent sub id s u Hf oid Hr Hd) as H.
        apply pair_equal_spec in H; tauto. }
    pose proof (delete_expense_found sub id s u Hf oid Hr d Hd) as H.
    right. exists u. eexists. eexists. eexists. split; [reflexivity|].
    split; [apply pair_equal_spec in H; apply (proj2 H)|].
    right; right; right. exists id, oid, d. auto.
Qed.

Lemma update_expense_doc_ids id uid p es :
  map e_id (snd (update_expense_doc id uid p es)) = map e_id es /\
  map user_id (snd (update_expense_doc id uid p es)) = map user_id es.
Proof.
  induction es as [|e r IH]; cbn [update_expense_doc snd map]; [auto|].
  destruct (owned id uid e); [cbn; auto|].
  destruct (update_expense_doc id uid p r) as [n r']; cbn [snd map] in *.
  destruct IH as [H1 H2]. rewrite H1, H2. auto.
Qed.

(** A document of the ledger after [update_one] was there before, or is the
    patched form of the matched document. *)
Lemma update_expense_doc_In id uid p es e :
  In e (snd (update_expense_doc id uid p es)) ->
  In e es \/ exists d, find_expense id uid es = Some d /\ e = apply_set p d.
Proof.
  unfold find_expense.
  induction es as [|x r IH]; cbn [update_expense_doc snd find]; [tauto|].
  destruct (owned id uid x).
  - cbn [snd In]. intros [H | H]; [right; exists x; auto | left; right; assumption].
  - destruct (update_expense_doc id uid p r) as [n r']; cbn [snd In] in *.
    intros [H | H]; [left; left; assumption|].
    destruct (IH H) as [H1 | H1]; [left; right; assumption | right; assumption].
Qed.

Lemma delete_expense_doc_In id uid es e :
  In e (snd (delete_expense_doc id uid es)) -> In e es.
Proof.
  induction es as [|x r IH]; cbn [delete_expense_doc snd]; [tauto|].
  destruct (owned id uid x); [cbn; tauto|].
  destruct (delete_expense_doc id uid r) as [n r']; cbn [snd In] in *.
  intros [H | H]; [left; assumption | right; apply IH; assumption].
Qed.

Lemma delete_expense_doc_NoDup id uid es :
  NoDup (map e_id es) -> NoDup (map e_id (snd (delete_expense_doc id uid es))).
Proof.
  induction es as [|x r IH]; cbn [delete_expense_doc snd map]; [auto|].
  intro Hnd. inversion Hnd as [|a l Hnotin Hnd']; subst.
  destruct (owned id uid x); [assumption|].
  pose proof (delete_expense_doc_In id uid r) as Hin.
  destruct (delete_expense_doc id uid r) as [n r']; cbn [snd map] in *.
  constructor; [|apply IH; assumption].
  intro H. apply Hnotin. apply in_map_iff in H. destruct H as (e & He & H).
  apply in_map_iff. exists e. split; [assumption | apply Hin; assumption].
Qed.

Lemma In_map_bound {A} (f : A -> N) (l l' : list A) (n : N) :
  map f l' = map f l ->
  (forall x, In x l -> (f x < n)%N) -> forall x, In x l' -> (f x < n)%N.
Proof.
  intros Hmap Hl x Hx. apply (in_map f) in Hx. rewrite Hmap in Hx.
  apply in_map_iff in Hx. destruct Hx as (y & Hy & Hin).
  rewrite <- Hy. apply Hl. assumption.
Qed.

Lemma db_wf_intro us es cs n :
  NoDup (map u_id us) -> NoDup (map e_id es) ->
  (forall u, In u us -> (u_id u < n)%N) ->
  (forall e, In e es -> (e_id e < n)%N) ->
  (forall e, In e es -> (user_id e < n)%N) ->
  db_wf (mk_db us es cs n).
Proof.
  intros H1 H2 H3 H4 H5. unfold db_wf, fresh_from. cbn [users expenses next_oid].
  split; [assumption|]. split; [assumption|]. split; [assumption|].
  intros e He. split; [apply H4 | apply H5]; assumption.
Qed.

Lemma db_wf_elim s :
  db_wf s ->
  NoDup (map u_id (users s)) /\ NoDup (map e_id (expenses s)) /\
  (forall u, In u (users s) -> (u_id u < next_oid s)%N) /\
  (forall e, In e (expenses s) -> (e_id e < next_oid s)%N) /\
  (forall e, In e (expenses s) -> (user_id e < next_oid s)%N).
Proof.
  intros (H1 & H2 & H3 & H4).
  repeat (split; [assumption|]).
  split; intros e He; apply H4; assumption.
Qed.

Lemma lt_succ_of_lt (a n : N) : (a < n)%N -> (a < N.succ n)%N.
Proof. lia. Qed.



(** ** Round trips through the ledger *)

Lemma find_expense_fresh id uid es :
  (forall e, In e es -> (e_id e < id)%N) -> find_expense id uid es = None.
Proof.
  intro H. unfold find_expense.
  destruct (find (owned id uid) es) as [d|] eqn:Hf; [|reflexivity].
  apply find_some in Hf. destruct Hf as [Hin Ho].
  unfold owned, oid_eqb in Ho. apply andb_true_iff in Ho. destruct Ho as [Ho _].
  apply N.eqb_eq in Ho. apply H in Hin. lia.
Qed.

(** X5.  An expense that POST /expenses accepted is read back unchanged:
    GET /expenses/{id} with the returned id answers with the submitted amount,
    category, date and description, the caller as owner and that id. *)
Theorem created_expense_reads_back (s : db) (sub native : string) (u : user_doc)
  (e : ExpenseCreate) (id : ObjectId) :
  db_wf s ->
  find_user_by_name sub (users s) = Some u ->
  result_of (run (add_expense e sub) s) = Ok id ->
  ObjectId_of_string (strip native) = Some id ->
  result_of (run (get_expense native sub) (db_of (run (add_expense e sub) s)))
  = Ok (mk_expense id (u_id u) (c_amount e) (c_category e) (c_date e)
          (c_description e)).
Proof.
  intros Hwf Hf Hok Hnat. apply db_wf_elim in Hwf.
  destruct Hwf as (Hu & He & Hfu & Hfe & Hfo).
  pose proof (run_add_expense e sub s) as H. cbv zeta in H. rewrite Hf in H.
  destruct (get_balance u <? c_amount e);
    [apply pair_equal_spec in H; destruct H as [Hres _]; congruence|].
  destruct (find_category _ _);
    [|apply pair_equal_spec in H; destruct H as [Hres _]; congruence].
  apply pair_equal_spec in H. destruct H as [Hres Hdb].
  rewrite Hres in Hok. inversion Hok; subst id; clear Hok.
  rewrite Hdb.
  destruct (inc_balance_account sub (users s) u (- c_amount e) Hu Hf)
    as (_ & Hf' & _).
  match goal with |- context [run _ ?S] => set (s' := S) end.
  change (find_user_by_name sub (users s') = Some (set_balance u (get_balance u + - c_amount e))) in Hf'.
  rewrite (get_expense_resolved sub native s' _ Hf' (next_oid s)).
  - subst s'. cbn [expenses set_balance u_id]. unfold find_expense.
    rewrite (find_app_none _ _ _ (find_expense_fresh _ (u_id u) _ Hfe)).
    unfold owned, oid_eqb. cbn [e_id user_id]. rewrite !N.eqb_refl. reflexivity.
  - rewrite (run_resolve_native native _ _ _ Hnat). reflexivity.
Qed.

Lemma created_expense_reads_back_witness :
  result_of (run (get_expense "000000000000000000000003" "ann")
               (db_of (run (add_expense (mk_create 4 "Food" "2024-04-01" "tea") "ann")
                         scenario_c_db)))
  = Ok (mk_expense 3%N 1%N 4 "Food" "2024-04-01" "tea").
Proof.
  apply (created_expense_reads_back scenario_c_db "ann" "000000000000000000000003"
           (mk_user 1%N "ann" "pw" "Ann" "a@x" "user" (Some 10))
           (mk_create 4 "Food" "2024-04-01" "tea") 3%N).
  - apply db_wf_intro; cbn.
    + constructor; [intros [] | constructor].
    + constructor; [intros [] | constructor].
    + intros v [Hv | []]; subst v; cbn; lia.
    + intros v [Hv | []]; subst v; cbn; lia.
    + intros v [Hv | []]; subst v; cbn; lia.
  - reflexivity.
  - reflexivity.
  - reflexivity.
Defined.

Lemma delete_expense_doc_spec id uid es d :
  NoDup (map e_id es) ->
  find_expense id uid es = Some d ->
  find_expense id uid (snd (delete_expense_doc id uid es)) = None /\
  forall e, In e (snd (delete_expense_doc id uid es)) <-> In e es /\ e <> d.
Proof.
  unfold find_expense.
  induction es as [|x r IH]; cbn [delete_expense_doc find snd map]; [discriminate|].
  intros Hnd Hf. inversion Hnd as [|a l Hnotin Hnd']; subst.
  destruct (owned id uid x) eqn:Ho.
  - inversion Hf; subst x. cbn [snd].
    assert (Hid : e_id d = id).
    { unfold owned, oid_eqb in Ho. apply andb_true_iff in Ho.
      destruct Ho as [Ho _]. apply N.eqb_eq in Ho. assumption. }
    split.
    + destruct (find (owned id uid) r) as [y|] eqn:Hy; [|reflexivity].
      exfalso. apply find_some in Hy. destruct Hy as [Hin Hy].
      unfold owned, oid_eqb in Hy. apply andb_true_iff in Hy.
      destruct Hy as [Hy _]. apply N.eqb_eq in Hy.
      apply Hnotin. rewrite Hid, <- Hy. apply in_map. assumption.
    + intro e. cbn [In]. split.
      * intro Hin. split; [right; assumption|].
        intro Heq. subst e. apply Hnotin. apply in_map. assumption.
      * intros [[Heq | Hin] Hne]; [congruence | assumption].
  - destruct (IH Hnd' Hf) as [H1 H2].
    assert (Hxd : x <> d).
    { intro Heq. subst x. apply find_some in Hf. destruct Hf as [_ Hf].
      congruence. }
    destruct (delete_expense_doc id uid r) as [n r']; cbn [snd find In] in *.
    rewrite Ho. split; [assumption|].
    intro e. rewrite H2. split.
    + intros [Heq | [Hin Hne]]; [subst e; auto | auto].
    + intros [[Heq | Hin] Hne]; [left; assumption | right; auto].
Qed.



Lemma update_expense_doc_found id uid p es d :
  find_expense id uid es = Some d ->
  find_expense id uid (snd (update_expense_doc id uid p es)) = Some (apply_set p d).
Proof.
  unfold find_expense.
  induction es as [|x r IH]; cbn [update_expense_doc find snd]; [discriminate|].
  destruct (owned id uid x) eqn:Ho.
  - intro H; inversion H; subst x. cbn [snd find].
    unfold owned in *. cbn [apply_set e_id user_id]. rewrite Ho. reflexivity.
  - intro H. specialize (IH H).
    destruct (update_expense_doc id uid p r) as [n r']; cbn [snd find] in *.
    rewrite Ho. assumption.
Qed.

(** X7.  After a successful PUT /expenses/{id}, GET with the native id of the
    record answers with the patched record: the fields of the patch take the
    new values, the other fields, the id and the owner keep theirs. *)
Theorem updated_expense_reads_back (s : db) (sub id native : string) (u : user_doc)
  (oid : ObjectId) (d : expense_doc) (p : ExpenseUpdate) :
  NoDup (map u_id (users s)) ->
  find_user_by_name sub (users s) = Some u ->
  result_of (run (resolve_expense_object_id id u) s) = Ok oid ->
  find_expense oid (u_id u) (expenses s) = Some d ->
  result_of (run (update_expense id p sub) s) = Ok tt ->
  ObjectId_of_string (strip native) = Some oid ->
  result_of (run (get_expense native sub) (db_of (run (update_expense id p sub) s)))
  = Ok (mk_expense (e_id d) (user_id d)
          (or_else (p_amount p) (amount d))
          (or_else (p_category p) (category d))
          (or_else (p_date p) (date d))
          (or_else (p_description p) (description d))).
Proof.
  intros Hu Hf Hr Hd Hok Hnat.
  pose proof (update_expense_found sub id p s u Hf oid Hr d Hd) as H.
  cbv zeta in H. rewrite Hok in H.
  destruct (no_fields p); [apply pair_equal_spec in H; destruct H; discriminate|].
  destruct (negb _); [apply pair_equal_spec in H; destruct H; discriminate|].
  destruct (get_balance u <? _);
    [apply pair_equal_spec in H; destruct H; discriminate|].
  apply pair_equal_spec in H. destruct H as [_ Hdb]. rewrite Hdb.
  destruct (inc_balance_account sub (users s) u
              (- (or_else (p_amount p) (amount d) - amount d)) Hu Hf)
    as (_ & Hf' & _).
  match goal with |- context [run _ ?S] => set (s' := S) end.
  change (find_user_by_name sub (users s')
          = Some (set_balance u
                    (get_balance u + - (or_else (p_amount p) (amount d) - amount d))))
    in Hf'.
  rewrite (get_expense_resolved sub native s' _ Hf' oid).
  - subst s'. cbn [expenses set_balance u_id].
    rewrite (update_expense_doc_found _ _ p _ _ Hd). reflexivity.
  - rewrite (run_resolve_native native _ _ _ Hnat). reflexivity.
Qed.

Lemma updated_expense_reads_back_witness :
  result_of (run (get_expense "000000000000000000000002" "ann")
               (db_of (run (update_expense "0" (mk_update None None None (Some "brunch"))
                              "ann") scenario_c_db)))
  = Ok (mk_expense 2%N 1%N 90 "Food" "2024-01-01" "brunch").
Proof.
  apply (updated_expense_reads_back scenario_c_db "ann" "0" "000000000000000000000002"
           (mk_user 1%N "ann" "pw" "Ann" "a@x" "user" (Some 10)) 2%N
           (mk_expense 2%N 1%N 90 "Food" "2024-01-01" "lunch")
           (mk_update None None None (Some "brunch"))).
  - cbn. constructor; [intros [] | constructor].
  - reflexivity.
  - reflexivity.
  - reflexivity.
  - reflexivity.
  - reflexivity.
Defined.

(** ** Ownership *)

Lemma find_expense_foreign es e uid :
  NoDup (map e_id es) -> In e es -> user_id e <> uid ->
  find_expense (e_id e) uid es = None.
Proof.
  intros Hnd Hin Hne.
  destruct (find_expense (e_id e) uid es) as [d|] eqn:Hf; [|reflexivity].
  exfalso. apply find_expense_owner in Hf. destruct Hf as (Hid & Hown & Hd).
  assert (d = e); [|congruence].
  clear Hne Hown. induction es as [|x r IH]; [destruct Hin|].
  inversion Hnd as [|a l Hnotin Hnd']; subst.
  destruct Hin as [-> | Hin], Hd as [-> | Hd]; try reflexivity.
  - exfalso. apply Hnotin. rewrite <- Hid. apply in_map. assumption.
  - exfalso. apply Hnotin. rewrite Hid. apply in_map. assumption.
  - apply IH; assumption.
Qed.

(** X8.  The expenses of another user cannot be reached through their native
    id: GET, PUT and DELETE /expenses/{id} answer "Expense not found or not
    authorized", and neither the record nor any balance changes. *)
Theorem foreign_expense_is_not_found (s : db) (sub native : string) (u : user_doc)
  (e : expense_doc) :
  NoDup (map e_id (expenses s)) ->
  find_user_by_name sub (users s) = Some u ->
  In e (expenses s) ->
  user_id e <> u_id u ->
  ObjectId_of_string (strip native) = Some (e_id e) ->
  result_of (run (get_expense native sub) s) = Err ExpenseNotFound /\
  (forall p, run (update_expense native p sub) s
             = (Err ExpenseNotFound, s, [(Users, Read); (Expenses, Read)])) /\
  run (delete_expense native sub) s
  = (Err ExpenseNotFound, s, [(Users, Read); (Expenses, Read)]).
Proof.
  intros Hnd Hf Hin Hne Hnat.
  pose proof (find_expense_foreign _ _ _ Hnd Hin Hne) as Hnone.
  pose proof (run_resolve_native native u s _ Hnat) as Hrun.
  split; [|split].
  - rewrite (get_expense_resolved sub native s u Hf (e_id e)), Hnone;
      [reflexivity | rewrite Hrun; reflexivity].
  - intro p. unfold update_expense.
    rewrite run_bind, run_get_current_user, Hf; cbn [result_of db_of trace_of fst snd].
    rewrite run_bind, Hrun; cbn [result_of db_of trace_of fst snd].
    exec_step. rewrite Hnone. reflexivity.
  - unfold delete_expense.
    rewrite run_bind, run_get_current_user, Hf; cbn [result_of db_of trace_of fst snd].
    rewrite run_bind, Hrun; cbn [result_of db_of trace_of fst snd].
    exec_step. rewrite Hnone. reflexivity.
Qed.

Lemma foreign_expense_is_not_found_witness :
  run (delete_expense "000000000000000000000004" "ann") listing_db
  = (Err ExpenseNotFound, listing_db, [(Users, Read); (Expenses, Read)]).
Proof.
  apply (foreign_expense_is_not_found listing_db "ann" "000000000000000000000004"
           (mk_user 1%N "ann" "pw" "Ann" "a@x" "user" (Some 10))
           (mk_expense 4%N 2%N 7 "Food" "2024-03-01" "snack")).
  - cbn. repeat constructor; cbn; intuition discriminate.
  - reflexivity.
  - cbn. tauto.
  - cbn. discriminate.
  - reflexivity.
Defined.

Lemma filter_update_other id uid other p es :
  other <> uid ->
  filter (fun e => oid_eqb (user_id e) other) (snd (update_expense_doc id uid p es))
  = filter (fun e => oid_eqb (user_id e) other) es.
Proof.
  intro Hne.
  induction es as [|x r IH]; cbn [update_expense_doc snd filter]; [reflexivity|].
  destruct (owned id uid x) eqn:Ho.
  - cbn [snd filter apply_set user_id].
    unfold owned, oid_eqb in Ho. apply andb_true_iff in Ho. destruct Ho as [_ Ho].
    apply N.eqb_eq in Ho.
    replace (oid_eqb (user_id x) other) with false; [reflexivity|].
    symmetry. apply N.eqb_neq. congruence.
  - destruct (update_expense_doc id uid p r) as [n r']; cbn [snd filter] in *.
    rewrite IH. reflexivity.
Qed.

Lemma filter_delete_other id uid other es :
  other <> uid ->
  filter (fun e => oid_eqb (user_id e) other) (snd (delete_expense_doc id uid es))
  = filter (fun e => oid_eqb (user_id e) other) es.
Proof.
  intro Hne.
  induction es as [|x r IH]; cbn [delete_expense_doc snd filter]; [reflexivity|].
  destruct (owned id uid x) eqn:Ho.
  - cbn [snd].
    unfold owned, oid_eqb in Ho. apply andb_true_iff in Ho. destruct Ho as [_ Ho].
    apply N.eqb_eq in Ho.
    replace (oid_eqb (user_id x) other) with false; [reflexivity|].
    symmetry. apply N.eqb_neq. congruence.
  - destruct (delete_expense_doc id uid r) as [n r']; cbn [snd filter] in *.
    rewrite IH. reflexivity.
Qed.

(** X9.  An operation of one user touches that user's account only: the
    document of every other user id, the expenses of every other user (and
    their order) and the categories are as before, whatever the operation
    and its outcome. *)
Theorem operation_touches_only_the_caller (s : db) (sub : string) (o : op)
  (u : user_doc) (other : ObjectId) :
  find_user_by_name sub (users s) = Some u ->
  other <> u_id u ->
  let s' := fst (run_op sub o s) in
  find_user_by_id other (users s') = find_user_by_id other (users s) /\
  filter (fun e => oid_eqb (user_id e) other) (expenses s')
  = filter (fun e => oid_eqb (user_id e) other) (expenses s) /\
  categories s' = categories s.
Proof.
  intros Hf Hne s'. subst s'.
  destruct (run_op_effect sub o s)
    as [Hs | (u0 & delta & es' & n' & Hf0 & Hs & Hcase)]; rewrite Hs; [auto|].
  assert (u0 = u) by congruence. subst u0.
  cbn [users expenses categories].
  split; [apply inc_balance_other; assumption|]. split; [|reflexivity].
  destruct Hcase as [(a & _ & _ & _ & -> & _)
                    | [(e & _ & _ & _ & -> & _)
                    | [(id & p & oid & d & _ & _ & _ & _ & -> & _)
                    | (id & oid & d & _ & _ & _ & -> & _)]]].
  - reflexivity.
  - rewrite filter_app. cbn [filter user_id].
    replace (oid_eqb (u_id u) other) with false
      by (symmetry; apply N.eqb_neq; congruence).
    apply app_nil_r.
  - apply filter_update_other; assumption.
  - apply filter_delete_other; assumption.
Qed.

Lemma operation_touches_only_the_caller_witness :
  let s' := fst (run_op "ann" (DeleteExpense "0") listing_db) in
  find_user_by_id 2%N (users s') = find_user_by_id 2%N (users listing_db) /\
  filter (fun e => oid_eqb (user_id e) 2%N) (expenses s')
  = filter (fun e => oid_eqb (user_id e) 2%N) (expenses listing_db) /\
  categories s' = categories listing_db.
Proof.
  apply (operation_touches_only_the_caller listing_db "ann" (DeleteExpense "0")
           (mk_user 1%N "ann" "pw" "Ann" "a@x" "user" (Some 10)) 2%N).
  - reflexivity.
  - cbn. discriminate.
Defined.

(** ** The balance stays non-negative *)

Lemma run_op_keeps_solvent sub uid o s :
  solvent sub uid s -> amounts_not_negative o -> solvent sub uid (fst (run_op sub o s)).
Proof.
  intros (Hnd & (u & Hf & Hid & Hb) & Hes) Ho.
  destruct (run_op_effect sub o s)
    as [Hs | (u0 & delta & es' & n' & Hf0 & Hs & Hcase)]; rewrite Hs.
  { split; [assumption|]. split; [exists u; auto | assumption]. }
  assert (u0 = u) by congruence. subst u0.
  destruct (inc_balance_account sub (users s) u delta Hnd Hf) as (_ & Hf' & Hids).
  unfold solvent. cbn [users expenses]. rewrite Hids.
  split; [assumption|].
  destruct Hcase as [(a & _ & Ha & -> & -> & _)
                    | [(e & -> & Hle & -> & -> & _)
                    | [(id & p & oid & d & -> & Hd & -> & Hle & -> & _)
                    | (id & oid & d & _ & Hd & -> & -> & _)]]].
  - split; [|assumption].
    eexists. split; [exact Hf'|]. split; [assumption|]. cbn. lia.
  - split.
    + eexists. split; [exact Hf'|]. split; [assumption|]. cbn. lia.
    + intros x Hx Hux. apply in_app_iff in Hx. destruct Hx as [Hx | [Hx | []]].
      * apply Hes; assumption.
      * subst x. cbn in *. assumption.
  - split.
    + eexists. split; [exact Hf'|]. split; [assumption|]. cbn. lia.
    + intros x Hx Hux. apply update_expense_doc_In in Hx.
      destruct Hx as [Hx | (d0 & Hd0 & ->)]; [apply Hes; assumption|].
      assert (d0 = d) by congruence. subst d0.
      apply find_expense_owner in Hd. destruct Hd as (_ & Hown & Hin).
      cbn [apply_set amount]. cbn in Ho.
      destruct (p_amount p) as [a|]; cbn [or_else]; [assumption|].
      apply Hes; [assumption | congruence].
  - apply find_expense_owner in Hd. destruct Hd as (_ & Hown & Hin).
    split.
    + eexists. split; [exact Hf'|]. split; [assumption|]. cbn.
      assert (0 <= amount d) by (apply Hes; [assumption | congruence]). lia.
    + intros x Hx Hux. apply delete_expense_doc_In in Hx. apply Hes; assumption.
Qed.

Lemma run_ops_keep_solvent sub uid ops : forall s,
  solvent sub uid s -> Forall amounts_not_negative ops ->
  solvent sub uid (fst (run_ops sub ops s)).
Proof.
  induction ops as [|o r IH]; intros s Hs Hops; cbn [run_ops]; [assumption|].
  inversion Hops as [|x l Ho Hr]; subst.
  pose proof (run_op_keeps_solvent sub uid o s Hs Ho) as H1.
  destruct (run_op sub o s) as [s1 a]. cbn [fst] in H1.
  specialize (IH s1 H1 Hr).
  destruct (run_ops sub r s1) as [s2 b]. assumption.
Qed.



(** X11.  A patch without an amount never moves money: for an existing owned
    expense and a valid patch that sets no amount, the update is refused with
    InsufficientFunds exactly when the balance is negative, and otherwise
    succeeds leaving the balance and the sum of the caller's expenses as they
    were. *)
Theorem patch_without_amount_keeps_balance (s : db) (sub id : string) (u : user_doc)
  (oid : ObjectId) (d : expense_doc) (p : ExpenseUpdate) :
  NoDup (map u_id (users s)) ->
  find_user_by_name sub (users s) = Some u ->
  result_of (run (resolve_expense_object_id id u) s) = Ok oid ->
  find_expense oid (u_id u) (expenses s) = Some d ->
  no_fields p = false ->
  category_ok p (categories s) = true ->
  p_amount p = None ->
  let r := run (update_expense id p sub) s in
  (result_of r = Err InsufficientFunds <-> get_balance u < 0) /\
  (0 <= get_balance u ->
     result_of r = Ok tt /\
     account sub (u_id u) (get_balance u) (db_of r) /\
     spent (u_id u) (expenses (db_of r)) = spent (u_id u) (expenses s)).
Proof.
  intros Hnd Hf Hr Hd Hnf Hcat Hamt r.
  pose proof (update_expense_found sub id p s u Hf oid Hr d Hd) as H.
  fold r in H. cbv zeta in H. rewrite Hnf, Hcat, Hamt in H. cbn [negb or_else] in H.
  replace (amount d - amount d) with 0 in H by lia.
  destruct (get_balance u <? 0) eqn:Hlt;
    apply pair_equal_spec in H; destruct H as [Hres Hdb]; rewrite Hres, Hdb.
  - apply Z.ltb_lt in Hlt. split; [tauto | lia].
  - apply Z.ltb_ge in Hlt. split; [split; [discriminate | lia]|].
    intros _. split; [reflexivity|]. split.
    + pose proof (account_inc sub u (get_balance u) (- 0) s
                    (snd (update_expense_doc oid (u_id u) p (expenses s)))
                    (categories s) (next_oid s) Hnd Hf eq_refl) as Hacc.
      replace (get_balance u + - 0) with (get_balance u) in Hacc by lia.
      exact Hacc.
    + cbn [expenses]. rewrite (spent_update _ _ _ _ _ Hd), Hamt. cbn [or_else]. lia.
Qed.

Lemma patch_without_amount_keeps_balance_witness :
  let r := run (update_expense "0" (mk_update None None (Some "2024-01-02") None) "ann")
               scenario_c_db in
  result_of r = Ok tt /\ account "ann" 1%N 10 (db_of r).
Proof.
  pose proof (patch_without_amount_keeps_balance scenario_c_db "ann" "0"
                (mk_user 1%N "ann" "pw" "Ann" "a@x" "user" (Some 10)) 2%N
                (mk_expense 2%N 1%N 90 "Food" "2024-01-01" "lunch")
                (mk_update None None (Some "2024-01-02") None)) as H.
  cbv zeta in *. destruct H as [_ H].
  - cbn. constructor; [intros [] | constructor].
  - reflexivity.
  - reflexivity.
  - reflexivity.
  - reflexivity.
  - reflexivity.
  - reflexivity.
  - destruct H as (H1 & H2 & _); [cbn; lia|]. split; assumption.
Defined.

(** ** The listing of GET /expenses *)

Lemma insert_desc_perm e l : Permutation (insert_desc e l) (e :: l).
Proof.
  induction l as [|x r IH]; cbn [insert_desc]; [reflexivity|].
  destruct (String.ltb (date e) (date x)); [|reflexivity].
  rewrite IH. apply perm_swap.
Qed.

Lemma sort_desc_perm l : Permutation (sort_desc l) l.
Proof.
  induction l as [|x r IH]; cbn [sort_desc]; [reflexivity|].
  rewrite insert_desc_perm. constructor. assumption.
Qed.

Lemma ltb_asym a b : String.ltb a b = true -> String.ltb b a = false.
Proof.
  unfold String.ltb. rewrite (String.compare_antisym a b).
  destruct (String.compare b a); cbn; congruence.
Qed.

Lemma insert_desc_HdRel x e l :
  HdRel not_earlier x l -> not_earlier x e -> HdRel not_earlier x (insert_desc e l).
Proof.
  intros Hl He. destruct l as [|y r]; cbn [insert_desc]; [constructor; assumption|].
  destruct (String.ltb (date e) (date y)).
  - inversion Hl; subst. constructor; assumption.
  - constructor; assumption.
Qed.

Lemma insert_desc_sorted e l :
  Sorted not_earlier l -> Sorted not_earlier (insert_desc e l).
Proof.
  induction l as [|x r IH]; cbn [insert_desc]; intro Hs.
  - repeat constructor.
  - inversion Hs as [|a b Hr Hhd]; subst.
    destruct (String.ltb (date e) (date x)) eqn:Hlt.
    + constructor; [apply IH; assumption|].
      apply insert_desc_HdRel; [assumption|].
      unfold not_earlier. apply ltb_asym. assumption.
    + constructor; [assumption|]. constructor. exact Hlt.
Qed.

Lemma sort_desc_sorted l : Sorted not_earlier (sort_desc l).
Proof.
  induction l as [|x r IH]; cbn [sort_desc]; [constructor|].
  apply insert_desc_sorted. assumption.
Qed.

(** The filter document that the if/elif chain of [get_expenses] builds
    selects the wanted expenses. *)
Lemma get_expenses_query uid cat start stop e :
  matches
    (mk_query (Some uid)
       (if truthy cat then cat else None)
       (fst (if truthy start && truthy stop then (start, stop)
             else if truthy start then (start, None)
             else if truthy stop then (None, stop)
             else (None, None)))
       (snd (if truthy start && truthy stop then (start, stop)
             else if truthy start then (start, None)
             else if truthy stop then (None, stop)
             else (None, None)))) e
  = wanted uid cat start stop e.
Proof.
  unfold matches, wanted, on_filter, opt_test.
  destruct cat as [[|c1 r1]|], start as [[|c2 r2]|], stop as [[|c3 r3]|];
    cbn [truthy andb fst snd q_user q_category q_gte q_lte];
    rewrite ?andb_true_r; reflexivity.
Qed.

Lemma run_get_expenses cat start stop sub s :
  run (get_expenses cat start stop sub) s =
  match find_user_by_name sub (users s) with
  | None => (Err CredentialsError, s, [(Users, Read)])
  | Some u =>
      (Ok (find_sorted
             (mk_query (Some (u_id u))
                (if truthy cat then cat else None)
                (fst (if truthy start && truthy stop then (start, stop)
                      else if truthy start then (start, None)
                      else if truthy stop then (None, stop)
                      else (None, None)))
                (snd (if truthy start && truthy stop then (start, stop)
                      else if truthy start then (start, None)
                      else if truthy stop then (None, stop)
                      else (None, None))))
             (expenses s)),
       s, [(Users, Read); (Expenses, Read)])
  end.
Proof.
  unfold get_expenses.
  rewrite run_bind, run_get_current_user.
  destruct (find_user_by_name sub (users s)) as [u|];
    cbn [result_of db_of trace_of fst snd]; [|reflexivity].
  destruct (truthy start && truthy stop); [rewrite run_call; reflexivity|].
  destruct (truthy start); [rewrite run_call; reflexivity|].
  destruct (truthy stop); rewrite run_call; reflexivity.
Qed.

(** X12.  GET /expenses returns exactly the caller's expenses that pass every
    filter given (category equal, date >= start, date <= end; an absent or
    empty filter is ignored), each once, ordered by date with the latest
    first, and it only reads. *)
Theorem get_expenses_lists_the_wanted (s : db) (sub : string) (u : user_doc)
  (cat start stop : option string) :
  find_user_by_name sub (users s) = Some u ->
  exists l,
    run (get_expenses cat start stop sub) s
    = (Ok l, s, [(Users, Read); (Expenses, Read)]) /\
    Permutation l (filter (wanted (u_id u) cat start stop) (expenses s)) /\
    Sorted not_earlier l.
Proof.
  intro Hf. rewrite run_get_expenses, Hf.
  eexists. split; [reflexivity|]. unfold find_sorted. split.
  - rewrite sort_desc_perm.
    rewrite (filter_ext _ _ (get_expenses_query (u_id u) cat start stop)).
    reflexivity.
  - apply sort_desc_sorted.
Qed.

Lemma get_expenses_lists_the_wanted_witness :
  result_of (run (get_expenses (Some "Food") (Some "") (Some "2024-01-20") "ann")
               listing_db)
  = Ok [mk_expense 6%N 1%N 40 "Food" "2024-01-20" "dinner";
        mk_expense 3%N 1%N 20 "Food" "2024-01-05" "lunch"].
Proof.
  destruct (get_expenses_lists_the_wanted listing_db "ann"
              (mk_user 1%N "ann" "pw" "Ann" "a@x" "user" (Some 10))
              (Some "Food") (Some "") (Some "2024-01-20") eq_refl)
    as (l & Hrun & _ & _).
  reflexivity.
Defined.

(** ** The administration routes *)

Lemma arun_abind {A B} (m : aprog A) (f : A -> aprog B) (s : db) :
  arun (abind m f) s =
  match aresult_of (arun m s) with
  | AOk a =>
      (aresult_of (arun (f a) (adb_of (arun m s))),
       adb_of (arun (f a) (adb_of (arun m s))),
       (atrace_of (arun m s) ++ atrace_of (arun (f a) (adb_of (arun m s))))%list)
  | AErr e => (AErr e, adb_of (arun m s), atrace_of (arun m s))
  end.
Proof.
  revert s. induction m as [a | e | X c k IH]; intro s; cbn [abind arun].
  - unfold aresult_of, adb_of, atrace_of; cbn.
    destruct (arun (f a) s) as [[o s'] t]; reflexivity.
  - reflexivity.
  - destruct (admin_exec c s) as [x s1]. rewrite IH.
    unfold aresult_of, adb_of, atrace_of.
    destruct (arun (k x) s1) as [[o s2] t]; cbn.
    destruct o; reflexivity.
Qed.

Lemma arun_acall {X} (c : admin_cmd X) (s : db) :
  arun (acall c) s = (AOk (fst (admin_exec c s)), snd (admin_exec c s), [admin_io c]).
Proof.
  unfold acall; cbn. destruct (admin_exec c s); reflexivity.
Qed.

Lemma arun_lift {A} (m : prog A) (s : db) :
  arun (lift m) s =
  (match result_of (run m s) with
   | Ok a => AOk a
   | Err e => AErr (Core e)
   end, db_of (run m s), trace_of (run m s)).
Proof.
  revert s. induction m as [a | e | X c k IH]; intro s; cbn [lift arun run];
    try reflexivity.
  cbn [admin_exec admin_io]. destruct (exec c s) as [x s1]. rewrite IH.
  unfold result_of, db_of, trace_of.
  destruct (run (k x) s1) as [[o s2] t]; reflexivity.
Qed.

Lemma arun_get_current_admin sub s :
  arun (get_current_admin sub) s =
  match find_user_by_name sub (users s) with
  | None => (AErr (Core CredentialsError), s, [(Users, Read)])
  | Some u =>
      if String.eqb (role u) "admin" then (AOk u, s, [(Users, Read)])
      else (AErr AdminRequired, s, [(Users, Read)])
  end.
Proof.
  unfold get_current_admin.
  rewrite arun_abind, arun_lift, run_get_current_user.
  destruct (find_user_by_name sub (users s)) as [u|];
    cbn [aresult_of adb_of atrace_of result_of db_of trace_of fst snd];
    [|reflexivity].
  destruct (String.eqb (role u) "admin"); reflexivity.
Qed.

Ltac admin_gate Hf Hr :=
  rewrite arun_abind, arun_get_current_admin, Hf, Hr; reflexivity.

(** X13.  The administration routes are closed to everyone whose role is not
    "admin": POST /categories, DELETE /admin/users/{username},
    POST /admin/promote and GET /admin/expenses answer 403 "Admin access
    required" after one read of the users collection, whatever the request,
    and change nothing. *)
Theorem admin_routes_need_admin (s : db) (sub : string) (u : user_doc) :
  find_user_by_name sub (users s) = Some u ->
  String.eqb (role u) "admin" = false ->
  (forall name,
     arun (create_category name sub) s = (AErr AdminRequired, s, [(Users, Read)])) /\
  (forall name,
     arun (delete_user name sub) s = (AErr AdminRequired, s, [(Users, Read)])) /\
  (forall name new_role,
     arun (promote_user name new_role sub) s
     = (AErr AdminRequired, s, [(Users, Read)])) /\
  (forall cat start stop,
     arun (admin_get_expenses cat start stop sub) s
     = (AErr AdminRequired, s, [(Users, Read)])).
Proof.
  intros Hf Hr. repeat split; intros.
  - unfold create_category. admin_gate Hf Hr.
  - unfold delete_user. admin_gate Hf Hr.
  - unfold promote_user. admin_gate Hf Hr.
  - unfold admin_get_expenses. admin_gate Hf Hr.
Qed.

Lemma admin_routes_need_admin_witness :
  arun (delete_user "bob" "ann") admin_db = (AErr AdminRequired, admin_db, [(Users, Read)]).
Proof.
  apply (proj1 (proj2 (admin_routes_need_admin admin_db "ann"
                         (mk_user 2%N "ann" "pw" "Ann" "a@x" "user" (Some 10))
                         eq_refl eq_refl))).
Defined.

Lemma delete_user_doc_spec id us :
  NoDup (map u_id us) ->
  find_user_by_id id (snd (delete_user_doc id us)) = None /\
  (forall other, other <> id ->
     find_user_by_id other (snd (delete_user_doc id us)) = find_user_by_id other us) /\
  (forall v, In v (snd (delete_user_doc id us)) <-> In v us /\ u_id v <> id).
Proof.
  unfold find_user_by_id.
  induction us as [|u r IH]; cbn [delete_user_doc snd find map In]; intro Hnd.
  - split; [reflexivity|]. split; [reflexivity | tauto].
  - inversion Hnd as [|a l Hnotin Hnd']; subst.
    destruct (oid_eqb (u_id u) id) eqn:Hu.
    + unfold oid_eqb in Hu. apply N.eqb_eq in Hu. cbn [snd].
      assert (Hr : forall v, In v r -> u_id v <> id).
      { intros v Hv Heq. apply Hnotin. rewrite Hu, <- Heq. apply in_map. assumption. }
      split; [|split].
      * destruct (find (fun u0 => oid_eqb (u_id u0) id) r) as [v|] eqn:Hv; [|reflexivity].
        apply find_some in Hv. destruct Hv as [Hin Hv].
        unfold oid_eqb in Hv. apply N.eqb_eq in Hv. exfalso. apply (Hr v Hin Hv).
      * intros other Hne.
        replace (oid_eqb (u_id u) other) with false; [reflexivity|].
        symmetry. apply N.eqb_neq. congruence.
      * intro v. split; [intro Hv; split; [right; assumption | apply Hr; assumption]|].
        intros [[Heq | Hv] Hne]; [congruence | assumption].
    + destruct (IH Hnd') as (H1 & H2 & H3).
      destruct (delete_user_doc id r) as [n r']; cbn [snd find In] in *.
      rewrite Hu. split; [assumption|]. split.
      * intros other Hne. rewrite (H2 other Hne). reflexivity.
      * intro v. rewrite H3. unfold oid_eqb in Hu. apply N.eqb_neq in Hu.
        split; [intros [Heq | [Hv Hne]]; [subst v; auto | auto]|].
        intros [[Heq | Hv] Hne]; [left; assumption | right; auto].
Qed.

Lemma arun_delete_user name sub s a t :
  find_user_by_name sub (users s) = Some a ->
  String.eqb (role a) "admin" = true ->
  find_user_by_name name (users s) = Some t ->
  arun (delete_user name sub) s =
  (AOk tt,
   mk_db (snd (delete_user_doc (u_id t) (users s)))
         (filter (fun e => negb (oid_eqb (user_id e) (u_id t))) (expenses s))
         (categories s) (next_oid s),
   [(Users, Read); (Users, Read); (Expenses, Write); (Users, Write)]).
Proof.
  intros Ha Hr Ht. unfold delete_user.
  rewrite arun_abind, arun_get_current_admin, Ha, Hr;
    cbn [aresult_of adb_of atrace_of fst snd].
  rewrite arun_abind, arun_acall;
    cbn [admin_exec exec admin_io io_of aresult_of adb_of atrace_of fst snd].
  rewrite Ht.
  rewrite arun_abind, arun_acall;
    cbn [admin_exec exec admin_io io_of aresult_of adb_of atrace_of fst snd].
  rewrite arun_abind, arun_acall;
    cbn [admin_exec exec admin_io io_of aresult_of adb_of atrace_of fst snd users
         expenses categories next_oid].
  destruct (delete_user_doc (u_id t) (users s)) as [n us']. reflexivity.
Qed.

(** X14.  DELETE /admin/users/{username} by an administrator cascades: the
    account found under that name and every expense it owns are removed, the
    expenses of the other users stay in their order, and the other accounts
    are untouched; afterwards the removed id owns nothing and is no account.
    For an unknown name the answer is 404 "User not found" and nothing
    changes. *)
Theorem delete_user_cascades (s : db) (sub name : string) (a : user_doc) :
  NoDup (map u_id (users s)) ->
  find_user_by_name sub (users s) = Some a ->
  String.eqb (role a) "admin" = true ->
  (find_user_by_name name (users s) = None ->
     arun (delete_user name sub) s
     = (AErr (Core UserNotFound), s, [(Users, Read); (Users, Read)])) /\
  (forall t, find_user_by_name name (users s) = Some t ->
     let s' := adb_of (arun (delete_user name sub) s) in
     aresult_of (arun (delete_user name sub) s) = AOk tt /\
     find_user_by_id (u_id t) (users s') = None /\
     (forall e, In e (expenses s') -> user_id e <> u_id t) /\
     (forall other, other <> u_id t ->
        find_user_by_id other (users s') = find_user_by_id other (users s) /\
        filter (fun e => oid_eqb (user_id e) other) (expenses s')
        = filter (fun e => oid_eqb (user_id e) other) (expenses s)) /\
     categories s' = categories s).
Proof.
  intros Hnd Ha Hr. split.
  - intro Hn. unfold delete_user.
    rewrite arun_abind, arun_get_current_admin, Ha, Hr;
      cbn [aresult_of adb_of atrace_of fst snd].
    rewrite arun_abind, arun_acall;
      cbn [admin_exec exec admin_io io_of aresult_of adb_of atrace_of fst snd].
    rewrite Hn. reflexivity.
  - intros t Ht s'. subst s'. rewrite (arun_delete_user name sub s a t Ha Hr Ht).
    cbn [aresult_of adb_of fst snd users expenses categories].
    destruct (delete_user_doc_spec (u_id t) (users s) Hnd) as (H1 & H2 & _).
    split; [reflexivity|]. split; [assumption|]. split; [|split; [|reflexivity]].
    + intros e He Heq. apply filter_In in He. destruct He as [_ He].
      unfold oid_eqb in He. rewrite Heq, N.eqb_refl in He. discriminate.
    + intros other Hne. split; [apply H2; assumption|].
      induction (expenses s) as [|x r IH]; cbn [filter]; [reflexivity|].
      destruct (oid_eqb (user_id x) (u_id t)) eqn:Hx; cbn [negb filter].
      * unfold oid_eqb in Hx. apply N.eqb_eq in Hx.
        replace (oid_eqb (user_id x) other) with false; [assumption|].
        symmetry. apply N.eqb_neq. congruence.
      * destruct (oid_eqb (user_id x) other); rewrite IH; reflexivity.
Qed.

Lemma delete_user_cascades_witness :
  arun (delete_user "ann" "root") admin_db
  = (AOk tt,
     mk_db [mk_user 1%N "root" "pw" "Root" "r@x" "admin" (Some 0);
            mk_user 3%N "bob" "pw" "Bob" "b@x" "user" (Some 5)]
           [mk_expense 5%N 3%N 7 "Food" "2024-03-01" "snack"]
           ["Food"; "Rent"] 7%N,
     [(Users, Read); (Users, Read); (Expenses, Write); (Users, Write)]) /\
  arun (delete_user "zoe" "root") admin_db
  = (AErr (Core UserNotFound), admin_db, [(Users, Read); (Users, Read)]).
Proof.
  destruct (delete_user_cascades admin_db "root" "zoe"
              (mk_user 1%N "root" "pw" "Root" "r@x" "admin" (Some 0)))
    as [H _].
  - cbn. repeat constructor; cbn; intuition discriminate.
  - reflexivity.
  - reflexivity.
  - split; [reflexivity | apply H; reflexivity].
Defined.

(** ** The order of the date strings *)

Lemma ascii_compare_refl c : Ascii.compare c c = Eq.
Proof. unfold Ascii.compare. apply N.compare_refl. Qed.

Lemma compare_not_lt_trans a : forall b c,
  String.compare a b <> Lt -> String.compare b c <> Lt -> String.compare a c <> Lt.
Proof.
  induction a as [|x a IH]; intros [|y b] [|z c]; cbn; try congruence.
  destruct (Ascii.compare x y) eqn:Hxy; try congruence;
    destruct (Ascii.compare y z) eqn:Hyz; try congruence.
  - apply Ascii.compare_eq_iff in Hxy, Hyz. subst.
    rewrite ascii_compare_refl. apply IH.
  - apply Ascii.compare_eq_iff in Hxy. subst. rewrite Hyz. congruence.
  - apply Ascii.compare_eq_iff in Hyz. subst. rewrite Hxy. congruence.
  - intros _ _. replace (Ascii.compare x z) with Gt; [congruence|].
    symmetry. unfold Ascii.compare in *.
    apply N.compare_gt_iff. apply N.compare_gt_iff in Hxy, Hyz. lia.
Qed.

Lemma not_earlier_trans a b c : not_earlier a b -> not_earlier b c -> not_earlier a c.
Proof.
  unfold not_earlier, String.ltb. intros Hab Hbc.
  assert (H := compare_not_lt_trans (date a) (date b) (date c)).
  destruct (String.compare (date a) (date b)); try discriminate;
    destruct (String.compare (date b) (date c)); try discriminate;
    destruct (String.compare (date a) (date c)); try reflexivity;
    exfalso; apply H; congruence.
Qed.

Lemma insert_desc_first e l :
  Forall (not_earlier e) l -> insert_desc e l = e :: l.
Proof.
  intro H. destruct l as [|x r]; [reflexivity|]. cbn [insert_desc].
  inversion H as [|? ? Hx Hr]; subst. unfold not_earlier in Hx. rewrite Hx.
  reflexivity.
Qed.

(** The sort is stable, so it commutes with a selection. *)
Lemma filter_insert_desc p e l :
  StronglySorted not_earlier l ->
  filter p (insert_desc e l) = if p e then insert_desc e (filter p l) else filter p l.
Proof.
  induction l as [|x r IH]; intro Hs.
  - cbn. destruct (p e); reflexivity.
  - inversion Hs as [|? ? Hr Hx]; subst. cbn [insert_desc].
    destruct (String.ltb (date e) (date x)) eqn:Hlt.
    + cbn [filter]. rewrite (IH Hr).
      destruct (p x), (p e); cbn [insert_desc]; rewrite ?Hlt; reflexivity.
    + assert (Hall : Forall (not_earlier e) (filter p (x :: r))).
      { apply Forall_forall. intros y Hy. apply filter_In in Hy.
        destruct Hy as [[<-|Hy] _]; [exact Hlt|].
        apply (not_earlier_trans e x y); [exact Hlt|].
        rewrite Forall_forall in Hx. apply Hx. assumption. }
      rewrite (insert_desc_first e _ Hall).
      change (filter p (e :: x :: r))
        with (if p e then e :: filter p (x :: r) else filter p (x :: r)).
      reflexivity.
Qed.

Lemma filter_sort_desc p l : filter p (sort_desc l) = sort_desc (filter p l).
Proof.
  induction l as [|x r IH]; [reflexivity|].
  cbn [sort_desc filter]. rewrite filter_insert_desc.
  - rewrite IH. destruct (p x); reflexivity.
  - apply Sorted_StronglySorted; [|apply sort_desc_sorted].
    intros a b c. apply not_earlier_trans.
Qed.

Lemma filter_andb {A} (f g : A -> bool) l :
  filter (fun x => f x && g x) l = filter f (filter g l).
Proof.
  induction l as [|x r IH]; [reflexivity|]. cbn [filter].
  destruct (g x); cbn [filter]; rewrite ?andb_true_r, ?andb_false_r.
  - destruct (f x); rewrite IH; reflexivity.
  - assumption.
Qed.

(** ** GET /admin/expenses *)

(** The filter document of [admin_get_expenses] selects the expenses wanted,
    whoever owns them. *)
Lemma admin_get_expenses_query cat start stop e :
  matches
    (mk_query None
       (if truthy cat then cat else None)
       (fst (if truthy start && truthy stop then (start, stop)
             else if truthy start then (start, None)
             else if truthy stop then (None, stop)
             else (None, None)))
       (snd (if truthy start && truthy stop then (start, stop)
             else if truthy start then (start, None)
             else if truthy stop then (None, stop)
             else (None, None)))) e
  = wanted_by_admin cat start stop e.
Proof.
  unfold matches, wanted_by_admin, on_filter, opt_test.
  destruct cat as [[|c1 r1]|], start as [[|c2 r2]|], stop as [[|c3 r3]|];
    cbn [truthy andb fst snd q_user q_category q_gte q_lte];
    rewrite ?andb_true_r; reflexivity.
Qed.

(** The filter document of [get_expenses] is that of [admin_get_expenses]
    with the caller's id added. *)
Lemma matches_user_query uid c lo hi e :
  matches (mk_query (Some uid) c lo hi) e
  = oid_eqb (user_id e) uid && matches (mk_query None c lo hi) e.
Proof.
  unfold matches, opt_test; cbn [q_user q_category q_gte q_lte].
  destruct (oid_eqb (user_id e) uid); reflexivity.
Qed.

Lemma arun_admin_get_expenses cat start stop sub s a :
  find_user_by_name sub (users s) = Some a ->
  String.eqb (role a) "admin" = true ->
  arun (admin_get_expenses cat start stop sub) s =
  (AOk (find_sorted
          (mk_query None
             (if truthy cat then cat else None)
             (fst (if truthy start && truthy stop then (start, stop)
                   else if truthy start then (start, None)
                   else if truthy stop then (None, stop)
                   else (None, None)))
             (snd (if truthy start && truthy stop then (start, stop)
                   else if truthy start then (start, None)
                   else if truthy stop then (None, stop)
                   else (None, None))))
          (expenses s)),
   s, [(Users, Read); (Expenses, Read)]).
Proof.
  intros Ha Hr. unfold admin_get_expenses.
  rewrite arun_abind, arun_get_current_admin, Ha, Hr;
    cbn [aresult_of adb_of atrace_of fst snd].
  destruct (truthy start && truthy stop); [rewrite arun_acall; reflexivity|].
  destruct (truthy start); [rewrite arun_acall; reflexivity|].
  destruct (truthy stop); rewrite arun_acall; reflexivity.
Qed.

(** X15.  GET /admin/expenses by an administrator returns the expenses of
    all users that pass every filter given, each once, the latest date
    first, and only reads; what GET /expenses returns to a user for the same
    filters is the administrator's listing restricted to the expenses of
    that user, in the same order. *)
Theorem admin_listing_restricts_to_user_listing (s : db) (adm sub : string)
  (a u : user_doc) (cat start stop : option string) :
  find_user_by_name adm (users s) = Some a ->
  String.eqb (role a) "admin" = true ->
  find_user_by_name sub (users s) = Some u ->
  exists l,
    arun (admin_get_expenses cat start stop adm) s
    = (AOk l, s, [(Users, Read); (Expenses, Read)]) /\
    Permutation l (filter (wanted_by_admin cat start stop) (expenses s)) /\
    Sorted not_earlier l /\
    result_of (run (get_expenses cat start stop sub) s)
    = Ok (filter (fun e => oid_eqb (user_id e) (u_id u)) l).
Proof.
  intros Ha Hr Hu.
  rewrite (arun_admin_get_expenses cat start stop adm s a Ha Hr).
  eexists. split; [reflexivity|]. unfold find_sorted. split; [|split].
  - rewrite sort_desc_perm.
    rewrite (filter_ext _ _ (admin_get_expenses_query cat start stop)).
    reflexivity.
  - apply sort_desc_sorted.
  - rewrite run_get_expenses, Hu. cbn [result_of fst]. f_equal.
    unfold find_sorted. rewrite filter_sort_desc. f_equal.
    rewrite <- filter_andb. apply filter_ext. intro e.
    apply matches_user_query.
Qed.

Lemma admin_listing_restricts_to_user_listing_witness :
  aresult_of (arun (admin_get_expenses (Some "") None (Some "2024-02-15") "root") admin_db)
  = AOk [mk_expense 6%N 2%N 30 "Rent" "2024-02-01" "key";
         mk_expense 4%N 2%N 20 "Food" "2024-01-05" "lunch"] /\
  result_of (run (get_expenses None None None "bob") admin_db)
  = Ok [mk_expense 5%N 3%N 7 "Food" "2024-03-01" "snack"].
Proof.
  split; [reflexivity|].
  destruct (admin_listing_restricts_to_user_listing admin_db "root" "bob"
              (mk_user 1%N "root" "pw" "Root" "r@x" "admin" (Some 0))
              (mk_user 3%N "bob" "pw" "Bob" "b@x" "user" (Some 5))
              None None None eq_refl eq_refl eq_refl)
    as (l & Hrun & _ & _ & Hget).
  injection Hrun as Hl. subst l. exact Hget.
Defined.

(** ** POST /admin/promote *)

Lemma set_role_by_name_absent name r us :
  find_user_by_name name us = None -> set_role_by_name name r us = (0%nat, us).
Proof.
  unfold find_user_by_name.
  induction us as [|u rest IH]; cbn [find set_role_by_name]; [reflexivity|].
  destruct (String.eqb (username u) name); [discriminate|].
  intro H. rewrite (IH H). reflexivity.
Qed.

Lemma set_role_by_name_found name r us t :
  find_user_by_name name us = Some t ->
  fst (set_role_by_name name r us) = 1%nat /\
  find_user_by_name name (snd (set_role_by_name name r us)) = Some (set_role t r) /\
  (forall other, other <> name ->
     find_user_by_name other (snd (set_role_by_name name r us))
     = find_user_by_name other us) /\
  map but_role (snd (set_role_by_name name r us)) = map but_role us.
Proof.
  unfold find_user_by_name.
  induction us as [|u rest IH]; cbn [find set_role_by_name]; [discriminate|].
  destruct (String.eqb (username u) name) eqn:Hu.
  - intro H. injection H as <-. cbn [fst snd find map set_role username].
    rewrite Hu. split; [reflexivity|]. split; [reflexivity|]. split; [|reflexivity].
    intros other Hne. apply String.eqb_eq in Hu.
    replace (String.eqb (username u) other) with false; [reflexivity|].
    symmetry. apply String.eqb_neq. congruence.
  - intro H. destruct (IH H) as (H1 & H2 & H3 & H4).
    destruct (set_role_by_name name r rest) as [n rest']; cbn [fst snd find map] in *.
    rewrite Hu. split; [assumption|]. split; [assumption|]. split.
    + intros other Hne. rewrite (H3 other Hne). reflexivity.
    + rewrite H4. reflexivity.
Qed.

Lemma run_read_users_me sub s :
  run (read_users_me sub) s =
  match find_user_by_name sub (users s) with
  | None => (Err CredentialsError, s, [(Users, Read)])
  | Some u =>
      (Ok (mk_me (u_id u) (username u) (full_name u) (email u) (role u)
             (get_balance u)), s, [(Users, Read)])
  end.
Proof.
  unfold read_users_me. rewrite run_bind, run_get_current_user.
  destruct (find_user_by_name sub (users s)); reflexivity.
Qed.

(** X16.  POST /admin/promote by an administrator: a role other than "user"
    and "admin" is refused with 400 "Invalid role" before anything is
    written; an unknown username gives 404 "User not found" and changes
    nothing; otherwise the first account of that name gets the new role and
    nothing else changes: every account keeps its id, name, password hash,
    e-mail and balance, the ledger and the categories are untouched.
    Afterwards GET /users/me of the promoted account reports the new role
    with the old balance, and the administration routes are open to it
    exactly when the new role is "admin". *)
Theorem promote_user_sets_only_the_role (s : db) (sub name new_role : string)
  (a : user_doc) :
  find_user_by_name sub (users s) = Some a ->
  String.eqb (role a) "admin" = true ->
  (new_role <> "user" -> new_role <> "admin" ->
     arun (promote_user name new_role sub) s = (AErr InvalidRole, s, [(Users, Read)])) /\
  (new_role = "user" \/ new_role = "admin" ->
     (find_user_by_name name (users s) = None ->
        arun (promote_user name new_role sub) s
        = (AErr (Core UserNotFound), s, [(Users, Read); (Users, Write)])) /\
     (forall t, find_user_by_name name (users s) = Some t ->
        let s' := adb_of (arun (promote_user name new_role sub) s) in
        aresult_of (arun (promote_user name new_role sub) s) = AOk tt /\
        result_of (run (read_users_me name) s')
        = Ok (mk_me (u_id t) (username t) (full_name t) (email t) new_role
                (get_balance t)) /\
        aresult_of (arun (get_current_admin name) s')
        = (if String.eqb new_role "admin" then AOk (set_role t new_role)
           else AErr AdminRequired) /\
        (forall other, other <> name ->
           find_user_by_name other (users s') = find_user_by_name other (users s)) /\
        map but_role (users s') = map but_role (users s) /\
        expenses s' = expenses s /\
        categories s' = categories s /\
        next_oid s' = next_oid s)).
Proof.
  intros Ha Hr. split.
  - intros Hu Had. unfold promote_user.
    rewrite arun_abind, arun_get_current_admin, Ha, Hr;
      cbn [aresult_of adb_of atrace_of fst snd].
    apply String.eqb_neq in Hu, Had. rewrite Hu, Had. reflexivity.
  - intro Hvalid.
    assert (Hv : negb (String.eqb new_role "user" || String.eqb new_role "admin") = false).
    { destruct Hvalid as [-> | ->]; reflexivity. }
    split.
    + intro Hn. unfold promote_user.
      rewrite arun_abind, arun_get_current_admin, Ha, Hr;
        cbn [aresult_of adb_of atrace_of fst snd].
      rewrite Hv, arun_abind, arun_acall;
        cbn [admin_exec admin_io aresult_of adb_of atrace_of fst snd].
      rewrite (set_role_by_name_absent name new_role (users s) Hn).
      destruct s; reflexivity.
    + intros t Ht s'.
      assert (Hrun : arun (promote_user name new_role sub) s =
                     (AOk tt,
                      mk_db (snd (set_role_by_name name new_role (users s)))
                            (expenses s) (categories s) (next_oid s),
                      [(Users, Read); (Users, Write)])).
      { unfold promote_user.
        rewrite arun_abind, arun_get_current_admin, Ha, Hr;
          cbn [aresult_of adb_of atrace_of fst snd].
        rewrite Hv, arun_abind, arun_acall;
          cbn [admin_exec admin_io aresult_of adb_of atrace_of fst snd].
        destruct (set_role_by_name_found name new_role (users s) t Ht) as (H1 & _).
        destruct (set_role_by_name name new_role (users s)) as [n us'].
        cbn [fst snd] in *. subst n. reflexivity. }
      subst s'. rewrite Hrun. cbn [aresult_of adb_of fst snd].
      destruct (set_role_by_name_found name new_role (users s) t Ht)
        as (_ & H2 & H3 & H4).
      split; [reflexivity|]. split; [|split]; [| |split; [|split]].
      * rewrite run_read_users_me. cbn [users]. rewrite H2. reflexivity.
      * rewrite arun_get_current_admin. cbn [users]. rewrite H2.
        cbn [set_role role aresult_of fst].
        destruct (String.eqb new_role "admin"); reflexivity.
      * exact H3.
      * exact H4.
      * cbn. repeat split.
Qed.

Lemma promote_user_sets_only_the_role_witness :
  arun (promote_user "ann" "owner" "root") admin_db
  = (AErr InvalidRole, admin_db, [(Users, Read)]) /\
  aresult_of (arun (promote_user "ann" "admin" "root") admin_db) = AOk tt /\
  aresult_of (arun (get_current_admin "root")
                (adb_of (arun (promote_user "root" "user" "root") admin_db)))
  = AErr AdminRequired.
Proof.
  destruct (promote_user_sets_only_the_role admin_db "root" "ann" "owner"
              (mk_user 1%N "root" "pw" "Root" "r@x" "admin" (Some 0))
              eq_refl eq_refl) as [H _].
  split; [apply H; discriminate|].
  split; reflexivity.
Defined.

(** ** POST /categories *)

Lemma find_app_some {A} (f : A -> bool) l l' x :
  find f l = Some x -> find f (l ++ l') = Some x.
Proof.
  induction l as [|y r IH]; cbn; [discriminate|].
  destruct (f y); [trivial | assumption].
Qed.

Lemma arun_create_category name sub s a :
  find_user_by_name sub (users s) = Some a ->
  String.eqb (role a) "admin" = true ->
  arun (create_category name sub) s =
  match find_category name (categories s) with
  | Some _ => (AErr CategoryExists, s, [(Users, Read); (Categories, Read)])
  | None =>
      (AOk (next_oid s),
       mk_db (users s) (expenses s) (categories s ++ [name]) (N.succ (next_oid s)),
       [(Users, Read); (Categories, Read); (Categories, Write)])
  end.
Proof.
  intros Ha Hr. unfold create_category.
  rewrite arun_abind, arun_get_current_admin, Ha, Hr;
    cbn [aresult_of adb_of atrace_of fst snd].
  rewrite arun_abind, arun_acall;
    cbn [admin_exec exec admin_io io_of aresult_of adb_of atrace_of fst snd].
  destruct (find_category name (categories s)); [reflexivity|].
  rewrite arun_acall. reflexivity.
Qed.

(** X17.  POST /categories by an administrator registers a name once: a
    name already registered is refused with 400 "Category already exists"
    and nothing changes; a new name is appended to the categories and gets a
    fresh id, users and ledger are untouched, the names registered before
    are found as before, names that were distinct stay distinct, and a
    second POST of the same name is refused.  POST /expenses in that
    category, refused with "Invalid category" before for an amount the
    caller can afford, is accepted afterwards. *)
Theorem create_category_registers_once (s : db) (sub name : string) (a : user_doc) :
  find_user_by_name sub (users s) = Some a ->
  String.eqb (role a) "admin" = true ->
  (forall c, find_category name (categories s) = Some c ->
     arun (create_category name sub) s
     = (AErr CategoryExists, s, [(Users, Read); (Categories, Read)])) /\
  (find_category name (categories s) = None ->
     let s' := mk_db (users s) (expenses s) (categories s ++ [name])
                     (N.succ (next_oid s)) in
     arun (create_category name sub) s
     = (AOk (next_oid s), s', [(Users, Read); (Categories, Read); (Categories, Write)]) /\
     arun (create_category name sub) s'
     = (AErr CategoryExists, s', [(Users, Read); (Categories, Read)]) /\
     (NoDup (categories s) -> NoDup (categories s')) /\
     (forall c d, find_category c (categories s) = Some d ->
        find_category c (categories s') = Some d) /\
     (forall e caller u,
        find_user_by_name caller (users s) = Some u ->
        c_category e = name ->
        c_amount e <= get_balance u ->
        result_of (run (add_expense e caller) s) = Err InvalidCategory /\
        result_of (run (add_expense e caller) s') = Ok (N.succ (next_oid s)))).
Proof.
  intros Ha Hr. split.
  - intros c Hc. rewrite (arun_create_category name sub s a Ha Hr), Hc. reflexivity.
  - intros Hn s'.
    assert (Hfound : find_category name (categories s') = Some name).
    { unfold find_category. subst s'. cbn [categories].
      rewrite (find_app_none _ _ name Hn), String.eqb_refl. reflexivity. }
    split; [|split; [|split; [|split]]].
    + rewrite (arun_create_category name sub s a Ha Hr), Hn. reflexivity.
    + rewrite (arun_create_category name sub s' a Ha Hr), Hfound. reflexivity.
    + intro Hnd. subst s'. cbn [categories]. apply NoDup_snoc; [assumption|].
      intro Hin. pose proof (find_none _ _ Hn name Hin) as H. cbn in H.
      rewrite String.eqb_refl in H. discriminate.
    + intros c d Hc. subst s'. cbn [categories]. apply find_app_some. exact Hc.
    + intros e caller u Hu He Hle.
      pose proof (run_add_expense e caller s) as H1.
      pose proof (run_add_expense e caller s') as H2.
      cbv zeta in H1, H2.
      replace (users s') with (users s) in H2 by reflexivity.
      rewrite Hu in H1, H2.
      replace (get_balance u <? c_amount e) with false in H1, H2
        by (symmetry; apply Z.ltb_ge; exact Hle).
      rewrite He in H1, H2. rewrite Hn in H1. rewrite Hfound in H2.
      apply pair_equal_spec in H1, H2. split; [apply H1 | apply H2].
Qed.

Lemma create_category_registers_once_witness :
  arun (create_category "Food" "root") admin_db
  = (AErr CategoryExists, admin_db, [(Users, Read); (Categories, Read)]) /\
  arun (create_category "Travel" "root") admin_db
  = (AOk 7%N,
     mk_db (users admin_db) (expenses admin_db) ["Food"; "Rent"; "Travel"] 8%N,
     [(Users, Read); (Categories, Read); (Categories, Write)]).
Proof.
  destruct (create_category_registers_once admin_db "root" "Food"
              (mk_user 1%N "root" "pw" "Root" "r@x" "admin" (Some 0))
              eq_refl eq_refl) as [H _].
  split; [apply (H "Food"); reflexivity | reflexivity].
Defined.

(** ** POST /login *)

Lemma arun_login verify_password create_access_token name pw s :
  arun (login verify_password create_access_token name pw) s =
  (match find_user_by_name name (users s) with
   | None => AErr IncorrectLogin
   | Some u =>
       if verify_password pw (password u)
       then AOk (create_access_token (username u) (role u))
       else AErr IncorrectLogin
   end, s, [(Users, Read)]).
Proof.
  unfold login, authenticate_user.
  rewrite arun_abind, arun_lift, run_bind, run_call;
    cbn [exec io_of result_of db_of trace_of fst snd].
  destruct (find_user_by_name name (users s)) as [u|];
    cbn [run result_of db_of trace_of aresult_of adb_of atrace_of fst snd app];
    [|reflexivity].
  destruct (verify_password pw (password u)); reflexivity.
Qed.

(** X18.  Round trip of POST /register and POST /login: provided the
    password check accepts a password against its own hash, the name and
    password of a successful registration log in, the token is signed for
    that name with role "user", and the new account does not pass the
    administrator gate.  A password the check rejects against the stored
    hash and a name that is not stored get the same answer, 401 "Incorrect
    username or password"; login reads the users once and writes nothing. *)
Theorem register_then_login (get_password_hash : string -> string)
  (verify_password : string -> string -> bool)
  (create_access_token : string -> string -> string)
  (name pw fn mail : string) (s : db) (id : ObjectId) :
  verify_password pw (get_password_hash pw) = true ->
  result_of (run (register get_password_hash name pw fn mail) s) = Ok id ->
  let s' := db_of (run (register get_password_hash name pw fn mail) s) in
  arun (login verify_password create_access_token name pw) s'
  = (AOk (create_access_token name "user"), s', [(Users, Read)]) /\
  (forall pw', verify_password pw' (get_password_hash pw) = false ->
     arun (login verify_password create_access_token name pw') s'
     = (AErr IncorrectLogin, s', [(Users, Read)])) /\
  (forall other pw', find_user_by_name other (users s') = None ->
     arun (login verify_password create_access_token other pw') s'
     = (AErr IncorrectLogin, s', [(Users, Read)])) /\
  aresult_of (arun (get_current_admin name) s') = AErr AdminRequired.
Proof.
  intros Hv Hreg s'.
  pose proof (run_register get_password_hash name pw fn mail s) as H.
  cbv zeta in H. rewrite Hreg in H. fold s' in H.
  destruct (find_user_by_name name (users s)) eqn:Hn;
    [apply pair_equal_spec in H; destruct H; discriminate|].
  destruct (find (fun u => String.eqb (email u) mail) (users s));
    [apply pair_equal_spec in H; destruct H; discriminate|].
  apply pair_equal_spec in H. destruct H as [_ Hdb].
  assert (Hfound : find_user_by_name name (users s')
                   = Some (mk_user (next_oid s) name (get_password_hash pw) fn mail
                             "user" (Some 0))).
  { rewrite Hdb. cbn [users]. unfold find_user_by_name in *.
    rewrite (find_app_none _ _ _ Hn). cbn [username].
    rewrite String.eqb_refl. reflexivity. }
  split; [|split; [|split]].
  - rewrite arun_login, Hfound. cbn [password username role]. rewrite Hv. reflexivity.
  - intros pw' Hbad. rewrite arun_login, Hfound. cbn [password]. rewrite Hbad.
    reflexivity.
  - intros other pw' Hother. rewrite arun_login, Hother. reflexivity.
  - rewrite arun_get_current_admin, Hfound. reflexivity.
Qed.

Lemma register_then_login_witness :
  arun (login String.eqb (fun n r => n ++ ":" ++ r) "cy" "secret")
       (db_of (run (register (fun p => p) "cy" "secret" "Cy" "c@x") admin_db))
  = (AOk "cy:user",
     db_of (run (register (fun p => p) "cy" "secret" "Cy" "c@x") admin_db),
     [(Users, Read)]).
Proof.
  apply (register_then_login (fun p => p) String.eqb (fun n r => n ++ ":" ++ r)
           "cy" "secret" "Cy" "c@x" admin_db 7%N).
  - reflexivity.
  - reflexivity.
Defined.
